(** * read_pipelines.py: the pipeline-to-Markdown renderer

    A shallow embedding of [read_pipeline] (src/read_pipelines.py) and the
    properties of its output.

    - The document returned by [json.load] is a [value]: the Python objects
      the JSON decoder builds ([None], [bool], [int], [float], [str], [list],
      [dict] with string keys, in insertion order).
    - Strings are byte strings holding the UTF-8 encoding of the Python text.
    - The function runs in a small state-and-exception monad over the
      markdown file: [md.write] appends to the text of the file, an
      exception stops the run and leaves the state as it is at that point.
      Writes are assumed to succeed (no full disk), and the buffering of the
      file object is not modelled: the text of the file is the text passed
      to [md.write] so far.
    - [logging.info] has no effect on the files and is left out. *)

From Stdlib Require Import String Ascii List ZArith Bool DecimalString.
Import ListNotations.
Local Open Scope list_scope.
Local Open Scope string_scope.
Set Warnings "-register-all".

(** ** Python values and exceptions *)

Module Py.

(** What [json.load] returns.  A [float] is kept as the text [repr] gives
    it, which is all the program observes of it. *)
Inductive value : Type :=
| PyNone
| PyBool (b : bool)
| PyInt (z : Z)
| PyFloat (repr : string)
| PyStr (s : string)
| PyList (l : list value)
| PyDict (kvs : list (string * value)).

(** The exceptions the function can raise.  [KeyError] and [IndexError] are
    the lookup errors (the subclasses of [LookupError]). *)
Inductive exn : Type :=
| OSError
| JSONDecodeError
| KeyError (key : value)
| IndexError
| TypeError
| AttributeError.

Definition result (A : Type) : Type := (exn + A)%type.

(** *** Characters and text *)

Definition nl : string := String (ascii_of_nat 10) EmptyString.
Definition space : ascii := ascii_of_nat 32.
Definition squote : ascii := ascii_of_nat 39.
Definition dquote : ascii := ascii_of_nat 34.
Definition backslash : ascii := ascii_of_nat 92.

(** [s.replace(old, new)] for one-character [old] and [new]. *)
Fixpoint replace (old new : ascii) (s : string) : string :=
  match s with
  | EmptyString => EmptyString
  | String c r =>
      String (if Ascii.eqb c old then new else c) (replace old new r)
  end.

(** [sub in s] on two strings. *)
Fixpoint contains (sub s : string) : bool :=
  prefix sub s ||
  match s with
  | EmptyString => false
  | String _ r => contains sub r
  end.

(** The characters of a string: a byte [10xxxxxx] continues the character
    before it. *)
Definition is_continuation (c : ascii) : bool :=
  let n := nat_of_ascii c in (128 <=? n)%nat && (n <? 192)%nat.

Fixpoint chars_aux (s : string) : string * list string :=
  match s with
  | EmptyString => (EmptyString, [])
  | String c r =>
      let '(pending, cs) := chars_aux r in
      if is_continuation c then (String c pending, cs)
      else (EmptyString, String c pending :: cs)
  end.

Definition chars (s : string) : list string := snd (chars_aux s).

(** *** [repr] and [str] *)

Definition has_char (c : ascii) (s : string) : bool :=
  existsb (Ascii.eqb c) (list_ascii_of_string s).

Definition hex_digit (n : nat) : ascii :=
  ascii_of_nat (if (n <? 10)%nat then 48 + n else 87 + n).

(** One character of [repr] of a [str]; [q] is the quote chosen.  Bytes
    from 128 on belong to characters outside ASCII, which [repr] copies when
    they are printable. *)
Definition repr_char (q c : ascii) : string :=
  let n := nat_of_ascii c in
  if Ascii.eqb c q || Ascii.eqb c backslash then String backslash (String c EmptyString)
  else if (n =? 9)%nat then String backslash "t"
  else if (n =? 10)%nat then String backslash "n"
  else if (n =? 13)%nat then String backslash "r"
  else if (n <? 32)%nat || (n =? 127)%nat then
    String backslash (String "x" (String (hex_digit (n / 16)) (String (hex_digit (n mod 16)) EmptyString)))
  else String c EmptyString.

Fixpoint repr_chars (q : ascii) (s : string) : string :=
  match s with
  | EmptyString => EmptyString
  | String c r => repr_char q c ++ repr_chars q r
  end.

Definition repr_str (s : string) : string :=
  let q := if has_char squote s && negb (has_char dquote s) then dquote else squote in
  String q (repr_chars q s ++ String q EmptyString).

Definition repr_int (z : Z) : string := NilZero.string_of_int (Z.to_int z).

Fixpoint py_repr (v : value) : string :=
  match v with
  | PyNone => "None"
  | PyBool true => "True"
  | PyBool false => "False"
  | PyInt z => repr_int z
  | PyFloat r => r
  | PyStr s => repr_str s
  | PyList l => "[" ++ String.concat ", " (map py_repr l) ++ "]"
  | PyDict kvs =>
      "{" ++ String.concat ", " (map (fun kv => repr_str (fst kv) ++ ": " ++ py_repr (snd kv)) kvs) ++ "}"
  end.

(** [str(v)], which is also [format(v, '')], so what [%s], [{0}] and an
    f-string field [{v}] put in the text. *)
Definition py_str (v : value) : string :=
  match v with
  | PyStr s => s
  | _ => py_repr v
  end.

(** *** Operations on objects *)

Fixpoint assoc (k : string) (kvs : list (string * value)) : option value :=
  match kvs with
  | [] => None
  | (k', v) :: rest => if String.eqb k k' then Some v else assoc k rest
  end.

(** [v[k]] with a string key. *)
Definition getitem (v : value) (k : string) : result value :=
  match v with
  | PyDict kvs =>
      match assoc k kvs with
      | Some x => inr x
      | None => inl (KeyError (PyStr k))
      end
  | _ => inl TypeError
  end.

(** [v[0]]. *)
Definition getitem0 (v : value) : result value :=
  match v with
  | PyList (x :: _) => inr x
  | PyList [] => inl IndexError
  | PyStr s =>
      match chars s with
      | c :: _ => inr (PyStr c)
      | [] => inl IndexError
      end
  | PyDict _ => inl (KeyError (PyInt 0))
  | _ => inl TypeError
  end.

(** [v == s] for a string [s]. *)
Definition eq_str (v : value) (s : string) : bool :=
  match v with
  | PyStr s' => String.eqb s' s
  | _ => false
  end.

(** [k in v] for a string [k]. *)
Definition py_in (k : string) (v : value) : result bool :=
  match v with
  | PyDict kvs => inr (match assoc k kvs with Some _ => true | None => false end)
  | PyList l => inr (existsb (fun x => eq_str x k) l)
  | PyStr s => inr (contains k s)
  | _ => inl TypeError
  end.

(** [v.get(k, default)]. *)
Definition py_get (v : value) (k : string) (default : value) : result value :=
  match v with
  | PyDict kvs =>
      match assoc k kvs with
      | Some x => inr x
      | None => inr default
      end
  | _ => inl AttributeError
  end.

(** [v.items()]. *)
Definition py_items (v : value) : result (list (string * value)) :=
  match v with
  | PyDict kvs => inr kvs
  | _ => inl AttributeError
  end.

(** [len(v)]. *)
Definition py_len (v : value) : result nat :=
  match v with
  | PyList l => inr (List.length l)
  | PyDict kvs => inr (List.length kvs)
  | PyStr s => inr (List.length (chars s))
  | _ => inl TypeError
  end.

(** The elements [for x in v] goes through. *)
Definition py_iter (v : value) : result (list value) :=
  match v with
  | PyList l => inr l
  | PyDict kvs => inr (map (fun kv => PyStr (fst kv)) kvs)
  | PyStr s => inr (map PyStr (chars s))
  | _ => inl TypeError
  end.

(** [v.replace(old, new)]. *)
Definition py_replace (v : value) (old new : ascii) : result string :=
  match v with
  | PyStr s => inr (replace old new s)
  | _ => inl AttributeError
  end.

End Py.
Import Py.

(** ** The markdown file and the monad of the function *)

(** The file object [md]: not yet opened, open, or closed. *)
Inductive handle : Type :=
| NotOpened
| Opened
| Closed.

(** The markdown file as one invocation sees it.  [md_openable] tells
    whether [open(markdown_file_name, 'a')] succeeds; [md_text] is the text
    of the file, empty for a file that does not exist yet (mode ['a']
    creates it). *)
Record world : Type := World {
  md_openable : bool;
  md_text : string;
  md_handle : handle
}.

(** The state in which an invocation starts. *)
Definition start (openable : bool) (text : string) : world :=
  World openable text NotOpened.

Definition M (A : Type) : Type := world -> result A * world.

Definition ret {A} (a : A) : M A := fun w => (inr a, w).

Definition raise {A} (e : exn) : M A := fun w => (inl e, w).

Definition bind {A B} (m : M A) (f : A -> M B) : M B :=
  fun w =>
    match m w with
    | (inr a, w') => f a w'
    | (inl e, w') => (inl e, w')
    end.

Notation "x <- m ;; k" := (bind m (fun x => k))
  (at level 61, m at next level, right associativity).
Notation "m ;; k" := (bind m (fun _ => k))
  (at level 61, right associativity).

(** An operation of the runtime that touches no file. *)
Definition lift {A} (r : result A) : M A := fun w => (r, w).

(** Appending [s] to the text of the file. *)
Definition append_text (w : world) (s : string) : world :=
  World (md_openable w) (md_text w ++ s) (md_handle w).

(** [md = open(markdown_file_name, 'a')] *)
Definition md_open : M unit :=
  fun w =>
    if md_openable w then (inr tt, World (md_openable w) (md_text w) Opened)
    else (inl OSError, w).

(** [md.write(s)] *)
Definition md_write (s : string) : M unit :=
  fun w => (inr tt, append_text w s).

(** [md.close()] *)
Definition md_close : M unit :=
  fun w => (inr tt, World (md_openable w) (md_text w) Closed).

(** [for x in l: acc = body(x, acc)], with the local variables the body
    updates as the accumulator. *)
Fixpoint for_in {A B} (l : list A) (body : A -> B -> M B) (acc : B) : M B :=
  match l with
  | [] => ret acc
  | x :: rest => acc' <- body x acc ;; for_in rest body acc'
  end.

(** The pipeline file: [open(pipeline_file_name)] fails, or [json.load]
    fails, or the file holds a document. *)
Inductive input_file : Type :=
| Unreadable
| Malformed
| Document (v : value).

(** [open(pipeline_file_name)] *)
Definition open_input (f : input_file) : M input_file :=
  match f with
  | Unreadable => raise OSError
  | _ => ret f
  end.

(** [json.load(json_file)] *)
Definition json_load (f : input_file) : M value :=
  match f with
  | Document v => ret v
  | _ => raise JSONDecodeError
  end.

(** ** The function *)

(** The body of [for dep in act['dependsOn']]. *)
Definition dependency (activity_name : value) (dep : value) (mermaid_code : string) : M string :=
  dep_activity <- lift (getitem dep "activity") ;;
  dep_activity' <- lift (getitem dep "activity") ;;
  anchor <- lift (py_replace dep_activity' space "-") ;;
  conditions <- lift (getitem dep "dependencyConditions") ;;
  condition <- lift (getitem0 conditions) ;;
  md_write (nl ++ "   * [" ++ py_str dep_activity ++ "](" ++ "#" ++ anchor ++ ") ("
               ++ py_str condition ++ ") " ++ nl) ;;
  dep_activity'' <- lift (getitem dep "activity") ;;
  from_node <- lift (py_replace dep_activity'' space "_") ;;
  to_node <- lift (py_replace activity_name space "_") ;;
  ret (mermaid_code ++ from_node ++ " --> " ++ to_node ++ ";" ++ nl).

(** The branch [if act['type'] == "Copy"]. *)
Definition copy_source (act : value) : M unit :=
  type_properties <- lift (getitem act "typeProperties") ;;
  source_info <- lift (getitem type_properties "source") ;;
  source_info_type <- lift (getitem source_info "type") ;;
  md_write (nl ++ "   **Data Source Type:** " ++ py_str source_info_type ++ " " ++ nl) ;;
  sql_reader_query <- lift (getitem source_info "sqlReaderQuery") ;;
  value_sql <- lift (getitem sql_reader_query "value") ;;
  md_write (nl ++ "   **SQL Statement:**  " ++ nl) ;;
  md_write (nl ++ "   ```SQL " ++ nl ++ "   " ++ py_str value_sql ++ " " ++ nl ++ "   ```").

(** The body of [for act in properties['activities']]. *)
Definition activity (act : value) (mermaid_code : string) : M string :=
  activity_name <- lift (getitem act "name") ;;
  tipo_actividad <- lift (getitem act "type") ;;
  md_write (nl ++ " - **Name:** " ++ py_str activity_name ++ " " ++ nl) ;;
  md_write (nl ++ "   **Type:** " ++ py_str tipo_actividad ++ " " ++ nl) ;;
  node <- lift (py_replace activity_name space "_") ;;
  let mermaid_code := mermaid_code ++ node ++ "(" ++ py_str activity_name ++ ");" ++ nl in
  has_description <- lift (py_in "description" act) ;;
  (if has_description : bool then
     act_description <- lift (getitem act "description") ;;
     md_write (nl ++ "   **Description:** " ++ py_str act_description ++ " " ++ nl)
   else ret tt) ;;
  depends_on <- lift (getitem act "dependsOn") ;;
  n <- lift (py_len depends_on) ;;
  mermaid_code <-
    (if (0 <? n)%nat then
       md_write (nl ++ "   **Dependencies:**") ;;
       depends_on' <- lift (getitem act "dependsOn") ;;
       deps <- lift (py_iter depends_on') ;;
       for_in deps (dependency activity_name) mermaid_code
     else ret mermaid_code) ;;
  act_type <- lift (getitem act "type") ;;
  (if eq_str act_type "Copy" then copy_source act else ret tt) ;;
  ret mermaid_code.

(** The body of [for parameter, info in parameters.items()]. *)
Definition parameter_row (item : string * value) (_ : unit) : M unit :=
  let '(parameter_name, info) := item in
  parameter_type <- lift (py_get info "type" PyNone) ;;
  default_value <- lift (py_get info "defaultValue" PyNone) ;;
  md_write (nl ++ " |" ++ parameter_name ++ "|" ++ py_str parameter_type ++ "|"
               ++ py_str default_value ++ "|").

(** The branch [if 'parameters' in properties]. *)
Definition parameters_table (properties : value) : M unit :=
  md_write (nl ++ nl ++ " ### Parameters " ++ nl) ;;
  md_write (nl ++ " | Name | Type | Default Value |") ;;
  md_write (nl ++ " |---|---|---|") ;;
  parameters <- lift (py_get properties "parameters" (PyDict [])) ;;
  items <- lift (py_items parameters) ;;
  for_in items parameter_row tt.

(** What follows [pipelines_data = json.load(json_file)] inside the [with]
    block. *)
Definition render (pipelines_data : value) : M unit :=
  name <- lift (getitem pipelines_data "name") ;;
  md_write (nl ++ nl ++ " ## " ++ py_str name ++ " " ++ nl) ;;
  properties <- lift (py_get pipelines_data "properties" (PyDict [])) ;;
  has_description <- lift (py_in "description" properties) ;;
  (if has_description : bool then
     pipeline_description <- lift (getitem properties "description") ;;
     md_write (nl ++ " **Description:** " ++ py_str pipeline_description ++ " " ++ nl) ;;
     md_write (nl ++ nl ++ " ### Steps " ++ nl)
   else ret tt) ;;
  let mermaid_code := "```mermaid" ++ nl ++ "graph LR;" ++ nl in
  activities <- lift (getitem properties "activities") ;;
  acts <- lift (py_iter activities) ;;
  mermaid_code <- for_in acts activity mermaid_code ;;
  let mermaid_code := mermaid_code ++ " ```" in
  md_write (nl ++ nl ++ " ### Activities Diagram " ++ nl) ;;
  md_write (nl ++ " " ++ mermaid_code) ;;
  has_parameters <- lift (py_in "parameters" properties) ;;
  if has_parameters : bool then parameters_table properties else ret tt.

Definition read_pipeline (pipeline_file : input_file) : M unit :=
  md_open ;;
  (json_file <- open_input pipeline_file ;;
   pipelines_data <- json_load json_file ;;
   render pipelines_data) ;;
  md_close.

(** The outcome, the text of the markdown file and the state of [md] after
    an invocation. *)
Definition outcome (r : result unit * world) : result unit := fst r.
Definition text_after (r : result unit * world) : string := md_text (snd r).
Definition handle_after (r : result unit * world) : handle := md_handle (snd r).

(** ** Sample documents *)

Definition load_data : value :=
  PyDict [("name", PyStr "Load Data"); ("type", PyStr "Copy");
          ("dependsOn", PyList []);
          ("typeProperties", PyDict [("source", PyDict [
             ("type", PyStr "SqlSource");
             ("sqlReaderQuery", PyDict [("value", PyStr "SELECT 1")])])])].

Definition load_data_succeeded : value :=
  PyDict [("activity", PyStr "Load Data");
          ("dependencyConditions", PyList [PyStr "Succeeded"])].

Definition run_proc : value :=
  PyDict [("name", PyStr "Run Proc"); ("type", PyStr "SqlServerStoredProcedure");
          ("description", PyStr "runs it");
          ("dependsOn", PyList [load_data_succeeded])].

Definition window_start : value :=
  PyDict [("type", PyStr "String"); ("defaultValue", PyStr "2021-01-01")].

Definition sample_parameters : list (string * value) :=
  [("windowStart", window_start); ("retries", PyDict [("type", PyStr "Int")])].

Definition sample_properties : list (string * value) :=
  [("description", PyStr "Loads the data");
   ("activities", PyList [load_data; run_proc]);
   ("parameters", PyDict sample_parameters)].

Definition sample : value :=
  PyDict [("name", PyStr "Daily Load"); ("properties", PyDict sample_properties)].

(** No activities at all, and no parameters. *)
Definition sample_empty : value :=
  PyDict [("name", PyStr "Empty"); ("properties", PyDict [("activities", PyList [])])].

(** A dependency with an empty list of conditions. *)
Definition no_condition : value :=
  PyDict [("activity", PyStr "Load Data"); ("dependencyConditions", PyList [])].

Definition run_proc_no_condition : value :=
  PyDict [("name", PyStr "Run Proc"); ("type", PyStr "Wait");
          ("dependsOn", PyList [no_condition])].

Definition sample_no_condition : value :=
  PyDict [("name", PyStr "Daily Load");
          ("properties", PyDict [("activities", PyList [load_data; run_proc_no_condition])])].

(** One [Copy] activity. *)
Definition sample_copy : value :=
  PyDict [("name", PyStr "Copy It"); ("properties", PyDict [("activities", PyList [load_data])])].

(** A second activity without [dependsOn]. *)
Definition wait_activity : list (string * value) :=
  [("name", PyStr "Wait A Bit"); ("type", PyStr "Wait")].

Definition sample_no_dependsOn : value :=
  PyDict [("name", PyStr "Daily Load");
          ("properties", PyDict [("activities", PyList [load_data; PyDict wait_activity])])].

(** ** Vocabulary of the properties *)

(** [t] occurs in [s]. *)
Definition Infix (t s : string) : Prop :=
  exists pre post, s = pre ++ t ++ post.

(** [m] ends with [r] after appending [s], whatever the file held. *)
Definition emits {A} (m : M A) (r : result A) (s : string) : Prop :=
  forall w, m w = (r, append_text w s).

Definition writer {A} (m : M A) : Prop := exists r s, emits m r s.

(** The same for a loop body that extends the diagram text: it fails with
    [e], or appends [d] to the diagram text, and appends [s] to the file. *)
Definition extend (mermaid_code : string) (r : result string) : result string :=
  match r with
  | inl e => inl e
  | inr d => inr (mermaid_code ++ d)
  end.

Definition emits_acc (f : string -> M string) (r : result string) (s : string) : Prop :=
  forall mermaid_code w, f mermaid_code w = (extend mermaid_code r, append_text w s).

Definition acc_writer (f : string -> M string) : Prop := exists r s, emits_acc f r s.

(** The texts [render] writes around the activities: the heading with the
    name of the pipeline, the description with the [Steps] heading, and the
    diagram under its heading. *)
Definition heading_text (name : value) : string :=
  nl ++ nl ++ " ## " ++ py_str name ++ " " ++ nl.

Definition description_text (properties : list (string * value)) : string :=
  match assoc "description" properties with
  | Some d => (nl ++ " **Description:** " ++ py_str d ++ " " ++ nl) ++ (nl ++ nl ++ " ### Steps " ++ nl)
  | None => ""
  end.

Definition diagram_text (declarations : string) : string :=
  (nl ++ nl ++ " ### Activities Diagram " ++ nl)
  ++ (nl ++ " " ++ ("```mermaid" ++ nl ++ "graph LR;" ++ nl ++ declarations) ++ " ```").

(** The state in which the steps are observed on their own. *)
Definition w0 : world := World true "" Opened.

(** The run ended without exception. *)
Definition succeeds {A} (r : result A * world) : bool :=
  match fst r with
  | inr _ => true
  | inl _ => false
  end.

(** ** Vocabulary of the further properties *)

Definition is_dict (v : value) : bool :=
  match v with
  | PyDict _ => true
  | _ => false
  end.

(** What the loop over [acts] writes to the file and adds to the diagram
    text, observed on its own. *)
Definition activities_text (acts : list value) : string :=
  md_text (snd (for_in acts activity "" w0)).

Definition activities_declarations (acts : list value) : string :=
  match fst (for_in acts activity "" w0) with
  | inr d => d
  | inl _ => ""
  end.

(** The lines for the name and the type of an activity, and the line for
    its description when it has one. *)
Definition name_type_lines (n : string) (t : value) : string :=
  (nl ++ " - **Name:** " ++ n ++ " " ++ nl) ++ (nl ++ "   **Type:** " ++ py_str t ++ " " ++ nl).

Definition description_line (akvs : list (string * value)) : string :=
  match assoc "description" akvs with
  | Some d => nl ++ "   **Description:** " ++ py_str d ++ " " ++ nl
  | None => ""
  end.

(** The header of the parameter table and the row of one parameter whose
    [info] is an object. *)
Definition table_header : string :=
  (nl ++ nl ++ " ### Parameters " ++ nl)
  ++ (nl ++ " | Name | Type | Default Value |")
  ++ (nl ++ " |---|---|---|").

Definition or_none (o : option value) : value :=
  match o with
  | Some v => v
  | None => PyNone
  end.

Definition row_text (item : string * value) : string :=
  match snd item with
  | PyDict info =>
      nl ++ " |" ++ fst item ++ "|" ++ py_str (or_none (assoc "type" info)) ++ "|"
         ++ py_str (or_none (assoc "defaultValue" info)) ++ "|"
  | _ => ""
  end.

Definition rows_text (params : list (string * value)) : string :=
  fold_right (fun item rest => row_text item ++ rest) "" params.

Definition is_str (v : value) : bool :=
  match v with
  | PyStr _ => true
  | _ => false
  end.

(** [source_info['sqlReaderQuery']['value']] *)
Definition query_of (source_info : value) : result value :=
  match getitem source_info "sqlReaderQuery" with
  | inr q => getitem q "value"
  | inl e => inl e
  end.

(** The line and the edge of one dependency of the activity named [n], the
    dependencies of an activity under their label, and the lines of the
    source of a [Copy] activity. *)
Definition dependency_line (dep : value) : string :=
  match getitem dep "activity", getitem dep "dependencyConditions" with
  | inr (PyStr a), inr (PyList (c :: _)) =>
      nl ++ "   * [" ++ a ++ "](" ++ "#" ++ replace space "-" a ++ ") ("
         ++ py_str c ++ ") " ++ nl
  | _, _ => ""
  end.

Definition dependency_edge (n : string) (dep : value) : string :=
  match getitem dep "activity" with
  | inr (PyStr a) => replace space "_" a ++ " --> " ++ replace space "_" n ++ ";" ++ nl
  | _ => ""
  end.

Definition dependencies_text (deps : list value) : string :=
  match deps with
  | [] => ""
  | _ :: _ =>
      (nl ++ "   **Dependencies:**")
      ++ fold_right (fun dep rest => dependency_line dep ++ rest) "" deps
  end.

Definition dependencies_edges (n : string) (deps : list value) : string :=
  fold_right (fun dep rest => dependency_edge n dep ++ rest) "" deps.

Definition source_text (akvs : list (string * value)) : string :=
  match assoc "typeProperties" akvs with
  | Some (PyDict tp) =>
      match assoc "source" tp with
      | Some (PyDict src) =>
          match assoc "type" src, query_of (PyDict src) with
          | Some ty, inr q =>
              (nl ++ "   **Data Source Type:** " ++ py_str ty ++ " " ++ nl)
              ++ (nl ++ "   **SQL Statement:**  " ++ nl)
              ++ (nl ++ "   ```SQL " ++ nl ++ "   " ++ py_str q ++ " " ++ nl ++ "   ```")
          | _, _ => ""
          end
      | _ => ""
      end
  | _ => ""
  end.

(** The shape of a pipeline document: the objects, strings and lists the
    function expects to find. *)
Definition shaped_dependency (dep : value) : bool :=
  match dep with
  | PyDict kvs =>
      match assoc "activity" kvs, assoc "dependencyConditions" kvs with
      | Some (PyStr _), Some (PyList (_ :: _)) => true
      | _, _ => false
      end
  | _ => false
  end.

Definition shaped_source (akvs : list (string * value)) : bool :=
  match assoc "typeProperties" akvs with
  | Some (PyDict tp) =>
      match assoc "source" tp with
      | Some (PyDict src) =>
          match assoc "type" src, assoc "sqlReaderQuery" src with
          | Some _, Some (PyDict q) =>
              match assoc "value" q with
              | Some _ => true
              | None => false
              end
          | _, _ => false
          end
      | _ => false
      end
  | _ => false
  end.

Definition shaped_activity (act : value) : bool :=
  match act with
  | PyDict akvs =>
      match assoc "name" akvs, assoc "type" akvs, assoc "dependsOn" akvs with
      | Some (PyStr _), Some t, Some (PyList deps) =>
          forallb shaped_dependency deps
          && (if eq_str t "Copy" then shaped_source akvs else true)
      | _, _, _ => false
      end
  | _ => false
  end.

Definition shaped_parameters (props : list (string * value)) : bool :=
  match assoc "parameters" props with
  | None => true
  | Some (PyDict params) => forallb (fun item => is_dict (snd item)) params
  | Some _ => false
  end.

Definition shaped_pipeline (doc : value) : bool :=
  match doc with
  | PyDict kvs =>
      match assoc "name" kvs, assoc "properties" kvs with
      | Some _, Some (PyDict props) =>
          match assoc "activities" props with
          | Some (PyList acts) => forallb shaped_activity acts && shaped_parameters props
          | _ => false
          end
      | _, _ => false
      end
  | _ => false
  end.

(** ** Text lemmas *)

Section Text.

Lemma append_nil_r (s : string) : s ++ "" = s.
Proof. induction s as [|c s IH]; simpl; [reflexivity | now rewrite IH]. Qed.

Lemma append_assoc (a b c : string) : (a ++ b) ++ c = a ++ (b ++ c).
Proof. induction a as [|x a IH]; simpl; [reflexivity | now rewrite IH]. Qed.

Lemma Infix_refl (t : string) : Infix t t.
Proof. exists "", "". simpl. now rewrite append_nil_r. Qed.

Lemma Infix_app_l (t a b : string) : Infix t a -> Infix t (a ++ b).
Proof.
  intros (pre & post & ->). exists pre, (post ++ b).
  now rewrite !append_assoc.
Qed.

Lemma Infix_app_r (t a b : string) : Infix t b -> Infix t (a ++ b).
Proof.
  intros (pre & post & ->). exists (a ++ pre), post.
  now rewrite !append_assoc.
Qed.

Lemma Infix_trans (t u s : string) : Infix t u -> Infix u s -> Infix t s.
Proof.
  intros Htu (pre & post & ->).
  apply Infix_app_r, Infix_app_l, Htu.
Qed.

Lemma prefix_append (t s : string) :
  prefix t s = true <-> exists post, s = t ++ post.
Proof.
  revert s. induction t as [|c t IH]; intros s.
  - split; [intros _; exists s; reflexivity | intros _; now destruct s].
  - destruct s as [|d s]; simpl.
    + split; [discriminate | intros (post & H); discriminate].
    + destruct (Ascii.ascii_dec c d) as [->|Hne].
      * rewrite IH. split; intros (post & H); exists post.
        -- now rewrite H.
        -- now inversion H.
      * split; [discriminate | intros (post & H); inversion H; congruence].
Qed.

Lemma contains_Infix (t s : string) : contains t s = true <-> Infix t s.
Proof.
  induction s as [|c s IH].
  - change (contains t "") with (prefix t "" || false).
    rewrite orb_false_r, prefix_append. split.
    + intros (post & H). exists "", post. exact H.
    + intros (pre & post & H). destruct pre; simpl in H.
      * now exists post.
      * discriminate.
  - change (contains t (String c s)) with (prefix t (String c s) || contains t s).
    rewrite orb_true_iff, IH, prefix_append. split.
    + intros [(post & H) | (pre & post & H)].
      * exists "", post. exact H.
      * exists (String c pre), post. simpl. now rewrite H.
    + intros (pre & post & H). destruct pre as [|d pre]; simpl in H.
      * left. now exists post.
      * right. inversion H. now exists pre, post.
Qed.

Lemma not_contains_Infix (t s : string) : contains t s = false -> ~ Infix t s.
Proof.
  intros H Hin. apply contains_Infix in Hin. congruence.
Qed.

End Text.

Create HintDb text.
#[local] Hint Resolve Infix_refl Infix_app_l Infix_app_r : text.

(** ** Every step of the function only appends to the file *)

Section Writer.

Lemma append_text_nil (w : world) : append_text w "" = w.
Proof. destruct w. unfold append_text. simpl. now rewrite append_nil_r. Qed.

Lemma append_text_append (w : world) (a b : string) :
  append_text (append_text w a) b = append_text w (a ++ b).
Proof. unfold append_text. simpl. now rewrite append_assoc. Qed.

Lemma writer_ret {A} (a : A) : writer (ret a).
Proof. exists (inr a), "". intros w. unfold ret. now rewrite append_text_nil. Qed.

Lemma writer_lift {A} (r : result A) : writer (lift r).
Proof. exists r, "". intros w. unfold lift. now rewrite append_text_nil. Qed.

Lemma writer_write (s : string) : writer (md_write s).
Proof. exists (inr tt), s. intros w. reflexivity. Qed.

Lemma writer_bind {A B} (m : M A) (f : A -> M B) :
  writer m -> (forall a, writer (f a)) -> writer (bind m f).
Proof.
  intros (r & s & Hm) Hf. destruct r as [e|a].
  - exists (inl e), s. intros w. unfold bind. now rewrite Hm.
  - destruct (Hf a) as (r' & s' & Hfa).
    exists r', (s ++ s'). intros w. unfold bind.
    now rewrite Hm, Hfa, append_text_append.
Qed.

Lemma writer_if {A} (b : bool) (m1 m2 : M A) :
  writer m1 -> writer m2 -> writer (if b then m1 else m2).
Proof. now destruct b. Qed.

Lemma writer_for_in {A B} (body : A -> B -> M B) (l : list A) :
  (forall x acc, writer (body x acc)) -> forall acc, writer (for_in l body acc).
Proof.
  intros Hbody. induction l as [|x l IH]; intros acc; simpl.
  - apply writer_ret.
  - apply writer_bind; [apply Hbody | exact IH].
Qed.

Lemma acc_writer_writer (f : string -> M string) (mermaid_code : string) :
  acc_writer f -> writer (f mermaid_code).
Proof.
  intros (r & s & H). exists (extend mermaid_code r), s. intros w. apply H.
Qed.

Lemma emits_acc_for_in {A} (body : A -> string -> M string) (l : list A) :
  (forall x, acc_writer (body x)) -> acc_writer (for_in l body).
Proof.
  intros Hbody. induction l as [|x l IH]; simpl.
  - exists (inr ""), "". intros mc w. unfold ret. simpl.
    now rewrite append_nil_r, append_text_nil.
  - destruct (Hbody x) as (r & s & Hx). destruct r as [e|d].
    + exists (inl e), s. intros mc w. unfold bind. now rewrite Hx.
    + destruct IH as (r' & s' & Hl).
      exists (extend d r'), (s ++ s'). intros mc w. unfold bind.
      rewrite Hx. simpl. rewrite Hl, append_text_append.
      destruct r'; simpl; [reflexivity | now rewrite append_assoc].
Qed.

(** A successful loop has extended the diagram text and the file, and what
    it added contains what each of its rounds added. *)
Lemma for_in_In {A} (body : A -> string -> M string) (l : list A) (x : A) :
  (forall y, acc_writer (body y)) ->
  In x l ->
  forall mc w mc' w',
    for_in l body mc w = (inr mc', w') ->
    exists d s D S,
      emits_acc (body x) (inr d) s /\
      mc' = mc ++ D /\ w' = append_text w S /\
      Infix d D /\ Infix s S.
Proof.
  intros Hbody. induction l as [|y l IH]; intros Hin mc w mc' w' Hrun.
  - contradiction.
  - simpl in Hrun. unfold bind in Hrun.
    destruct (Hbody y) as (r & s & Hy). rewrite Hy in Hrun.
    destruct r as [e|d]; simpl in Hrun; [discriminate|].
    destruct Hin as [->|Hin].
    + destruct (emits_acc_for_in body l Hbody) as (r' & s' & Hl).
      rewrite Hl in Hrun. destruct r' as [e|d']; simpl in Hrun; [discriminate|].
      inversion Hrun; subst. exists d, s, (d ++ d'), (s ++ s').
      rewrite append_assoc, append_text_append.
      repeat split; auto using Infix_app_l, Infix_refl.
    + destruct (IH Hin _ _ _ _ Hrun) as (d0 & s0 & D & S & H0 & -> & -> & HD & HS).
      exists d0, s0, (d ++ D), (s ++ S).
      rewrite append_assoc, append_text_append.
      repeat split; auto using Infix_app_r.
Qed.

End Writer.

(** ** The steps of [read_pipeline] are writers *)

Section Steps.

(** Case analysis on every runtime operation whose result decides the
    rest of the run. *)
Ltac split_results :=
  repeat (cbn beta iota;
          match goal with
          | |- context [match ?x with inl _ => _ | inr _ => _ end] => destruct x
          | |- context [if ?x then _ else _] => destruct x
          end).

Ltac use_loops :=
  repeat match goal with
         | H : forall (mc : string) (w : world), for_in _ _ mc w = _ |- _ =>
             rewrite H; clear H
         end.

Ltac close_writer :=
  first
    [ eexists (inl _); eexists; intros; use_loops;
      cbn; rewrite ?append_text_append; reflexivity
    | eexists (inl _); exists ""; intros; use_loops;
      cbn; rewrite append_text_nil; reflexivity
    | eexists (inr _); eexists; intros; use_loops;
      cbn; rewrite ?append_text_append, ?append_assoc; reflexivity
    | eexists (inr _); exists ""; intros; use_loops;
      cbn; rewrite append_text_nil, ?append_assoc; reflexivity ].

Lemma dependency_acc_writer (activity_name dep : value) :
  acc_writer (dependency activity_name dep).
Proof.
  unfold acc_writer, emits_acc, dependency, bind, lift, md_write, ret.
  split_results; close_writer.
Qed.

Lemma dependencies_acc_writer (activity_name : value) (deps : list value) :
  acc_writer (for_in deps (dependency activity_name)).
Proof. apply emits_acc_for_in, dependency_acc_writer. Qed.

Lemma activity_acc_writer (act : value) : acc_writer (activity act).
Proof.
  unfold acc_writer, emits_acc, activity, copy_source, bind, lift, md_write, ret.
  split_results;
    try match goal with
        | |- context [for_in ?l (dependency ?n)] =>
            destruct (dependencies_acc_writer n l) as ([?|?] & ? & ?H);
            unfold emits_acc in H
        end.
  all: close_writer.
Qed.

Lemma copy_source_writer (act : value) : writer (copy_source act).
Proof.
  unfold copy_source.
  repeat first [apply writer_bind; [|intros] | apply writer_lift | apply writer_write].
Qed.

Lemma activities_acc_writer (acts : list value) : acc_writer (for_in acts activity).
Proof. apply emits_acc_for_in, activity_acc_writer. Qed.

Lemma parameter_row_writer (item : string * value) (u : unit) :
  writer (parameter_row item u).
Proof.
  destruct item as [parameter_name info]. unfold parameter_row.
  repeat first [apply writer_bind; [|intros] | apply writer_lift | apply writer_write].
Qed.

Lemma parameters_table_writer (properties : value) : writer (parameters_table properties).
Proof.
  unfold parameters_table.
  repeat first [apply writer_bind; [|intros] | apply writer_lift | apply writer_write
               | apply writer_for_in; intros; apply parameter_row_writer].
Qed.

Lemma render_writer (pipelines_data : value) : writer (render pipelines_data).
Proof.
  unfold render.
  repeat first [apply parameters_table_writer
               | apply acc_writer_writer, activities_acc_writer
               | apply writer_if
               | apply writer_bind; [|intros] | apply writer_lift | apply writer_write
               | apply writer_ret].
Qed.

End Steps.

(** ** One invocation *)

Section Invocation.

(** The file cannot be opened for appending: nothing else happens. *)
Lemma read_pipeline_not_openable (f : input_file) (text : string) :
  read_pipeline f (start false text) = (inl OSError, start false text).
Proof. reflexivity. Qed.

Lemma read_pipeline_unreadable (text : string) :
  read_pipeline Unreadable (start true text) = (inl OSError, World true text Opened).
Proof. reflexivity. Qed.

Lemma read_pipeline_malformed (text : string) :
  read_pipeline Malformed (start true text) = (inl JSONDecodeError, World true text Opened).
Proof. reflexivity. Qed.

(** With a document, the invocation is [render] between [open] and [close],
    and [close] is reached only without an exception. *)
Lemma read_pipeline_document (doc : value) (text : string) (r : result unit) (s : string) :
  emits (render doc) r s ->
  read_pipeline (Document doc) (start true text) =
  match r with
  | inr _ => (inr tt, World true (text ++ s) Closed)
  | inl e => (inl e, World true (text ++ s) Opened)
  end.
Proof.
  intros H. unfold read_pipeline, bind, md_open, open_input, json_load, ret, start.
  cbn -[render]. rewrite H. destruct r as [e|[]]; reflexivity.
Qed.

(** What one invocation appends depends on the pipeline file only. *)
Lemma read_pipeline_appends (f : input_file) :
  exists (r : result unit) (s : string) (h : handle),
    (h = Closed <-> r = inr tt) /\
    forall text, read_pipeline f (start true text) = (r, World true (text ++ s) h).
Proof.
  destruct f as [| |doc].
  - exists (inl OSError), "", Opened. split; [split; discriminate|].
    intros text. now rewrite append_nil_r.
  - exists (inl JSONDecodeError), "", Opened. split; [split; discriminate|].
    intros text. now rewrite append_nil_r.
  - destruct (render_writer doc) as (r & s & H). destruct r as [e|[]].
    + exists (inl e), s, Opened. split; [split; discriminate|].
      intros text. now rewrite (read_pipeline_document _ _ _ _ H).
    + exists (inr tt), s, Closed. split; [split; reflexivity|].
      intros text. now rewrite (read_pipeline_document _ _ _ _ H).
Qed.

End Invocation.

(** ** What a successful run has gone through *)

Section Inversion.

Lemma bind_ok {A B} (m : M A) (f : A -> M B) (w w' : world) (b : B) :
  bind m f w = (inr b, w') ->
  exists a w1, m w = (inr a, w1) /\ f a w1 = (inr b, w').
Proof.
  unfold bind. destruct (m w) as [[e|a] w1]; [discriminate|].
  intros H. now exists a, w1.
Qed.

Lemma lift_ok {A} (r : result A) (w w' : world) (a : A) :
  lift r w = (inr a, w') -> r = inr a /\ w' = w.
Proof. unfold lift. intros H. now inversion H. Qed.

Lemma ret_ok {A} (x a : A) (w w' : world) :
  ret x w = (inr a, w') -> a = x /\ w' = w.
Proof. unfold ret. intros H. now inversion H. Qed.

Lemma write_ok (s : string) (w w' : world) (u : unit) :
  md_write s w = (inr u, w') -> w' = append_text w s.
Proof. unfold md_write. intros H. now inversion H. Qed.

Lemma writer_extends {A} (m : M A) (w w' : world) (r : result A) :
  writer m -> m w = (r, w') -> exists s, w' = append_text w s.
Proof.
  intros (r' & s & H) Hrun. rewrite H in Hrun. inversion Hrun. now exists s.
Qed.

Lemma md_text_append_text (w : world) (s : string) :
  md_text (append_text w s) = md_text w ++ s.
Proof. reflexivity. Qed.

Lemma Infix_append_text (t s : string) (w : world) :
  Infix t (md_text w) -> Infix t (md_text (append_text w s)).
Proof. intros H. simpl. now apply Infix_app_l. Qed.

Lemma Infix_written (t s : string) (w : world) :
  Infix t s -> Infix t (md_text (append_text w s)).
Proof. intros H. simpl. now apply Infix_app_r. Qed.

Lemma emits_acc_w0 (f : string -> M string) (d s : string) :
  emits_acc f (inr d) s -> f "" w0 = (inr d, World true s Opened).
Proof. intros H. rewrite H. reflexivity. Qed.

End Inversion.

(** Going back through the binds of a run that ended without exception. *)
Ltac invert_run :=
  repeat (cbv beta zeta in *;
          match goal with
          | H : bind _ _ _ = (inr _, _) |- _ =>
              apply bind_ok in H; destruct H as (? & ? & ? & ?)
          | H : lift _ _ = (inr _, _) |- _ =>
              apply lift_ok in H; destruct H as [? ?]; subst
          | H : md_write _ _ = (inr _, _) |- _ =>
              apply write_ok in H; subst
          | H : ret _ _ = (inr _, _) |- _ =>
              apply ret_ok in H; destruct H as [? ?]; subst
          end).

(** Two results of the same operation are the same. *)
Ltac same_results :=
  repeat match goal with
         | H1 : ?t = inr _, H2 : ?t = inr _ |- _ =>
             rewrite H1 in H2; first [injection H2 as ?; subst | clear H2]
         | H1 : ?t = inr _, H2 : ?t = inl _ |- _ =>
             rewrite H1 in H2; discriminate H2
         end.

(** Two texts built from the same pieces in the same order. *)
Ltac text_eq :=
  rewrite ?md_text_append_text;
  repeat progress (cbn; rewrite ?append_assoc, ?append_nil_r);
  reflexivity.

Ltac infix_tac :=
  solve [ assumption
        | apply Infix_refl
        | apply Infix_append_text; infix_tac
        | apply Infix_written; infix_tac
        | apply Infix_app_l; infix_tac
        | apply Infix_app_r; infix_tac ].

Section Activities.

Lemma dependency_emits (activity_name dep : value) (n a : string) (conds c : value) :
  activity_name = PyStr n ->
  getitem dep "activity" = inr (PyStr a) ->
  getitem dep "dependencyConditions" = inr conds ->
  getitem0 conds = inr c ->
  emits_acc (dependency activity_name dep)
    (inr (replace space "_" a ++ " --> " ++ replace space "_" n ++ ";" ++ nl))
    (nl ++ "   * [" ++ a ++ "](" ++ "#" ++ replace space "-" a ++ ") ("
        ++ py_str c ++ ") " ++ nl).
Proof.
  intros -> Ha Hconds Hc mc w.
  unfold dependency, bind, lift, md_write, ret.
  rewrite Ha, Hconds, Hc. reflexivity.
Qed.

Lemma emits_acc_inj (f : string -> M string) (d d' s s' : string) :
  emits_acc f (inr d) s -> emits_acc f (inr d') s' -> d = d' /\ s = s'.
Proof.
  intros H H'. apply emits_acc_w0 in H, H'. rewrite H in H'. now inversion H'.
Qed.

Lemma activity_dependency (act dep : value) (n a : string) (deps : list value)
      (conds c : value) (d s : string) :
  emits_acc (activity act) (inr d) s ->
  getitem act "name" = inr (PyStr n) ->
  getitem act "dependsOn" = inr (PyList deps) ->
  In dep deps ->
  getitem dep "activity" = inr (PyStr a) ->
  getitem dep "dependencyConditions" = inr conds ->
  getitem0 conds = inr c ->
  Infix (nl ++ "   * [" ++ a ++ "](" ++ "#" ++ replace space "-" a ++ ") ("
            ++ py_str c ++ ") " ++ nl) s /\
  Infix (replace space "_" a ++ " --> " ++ replace space "_" n ++ ";" ++ nl) d.
Proof.
  intros H Hn Hdeps Hin Ha Hconds Hc.
  apply emits_acc_w0 in H. unfold activity in H.
  invert_run. same_results.
  cbn [py_len] in *.
  match goal with H : inr _ = inr _ |- _ => injection H as <- end.
  destruct deps as [|dep0 deps']; [contradiction|].
  match goal with H : (if (0 <? _)%nat then _ else _) _ = (inr _, _) |- _ =>
    cbn [List.length Nat.ltb Nat.leb] in H end.
  invert_run. same_results.
  cbn [py_iter] in *.
  match goal with H : inr _ = inr _ |- _ => injection H as <- end.
  match goal with
  | H : for_in _ _ _ _ = (inr _, _) |- _ =>
      destruct (for_in_In _ _ dep (dependency_acc_writer (PyStr n)) Hin _ _ _ _ H)
        as (d' & s' & D & S & Hdep & -> & -> & Hd & Hs)
  end.
  destruct (emits_acc_inj _ _ _ _ _ Hdep
              (dependency_emits _ _ _ _ _ _ eq_refl Ha Hconds Hc)) as [-> ->].
  split; [|now apply Infix_app_r].
  match goal with
  | H : (if eq_str _ _ then _ else _) _ = _ |- _ =>
      apply writer_extends in H;
      [ destruct H as (s'' & E)
      | apply writer_if; [apply copy_source_writer | apply writer_ret] ]
  end.
  apply (f_equal md_text) in E. cbn [md_text append_text] in E. subst s.
  now apply Infix_app_l, Infix_app_r.
Qed.

Lemma activity_copy (act tp src q v : value) (d s : string) :
  emits_acc (activity act) (inr d) s ->
  getitem act "type" = inr (PyStr "Copy") ->
  getitem act "typeProperties" = inr tp ->
  getitem tp "source" = inr src ->
  getitem src "sqlReaderQuery" = inr q ->
  getitem q "value" = inr v ->
  Infix (nl ++ "   ```SQL " ++ nl ++ "   " ++ py_str v ++ " " ++ nl ++ "   ```") s.
Proof.
  intros H Ht Htp Hsrc Hq Hv.
  apply emits_acc_w0 in H. unfold activity in H.
  invert_run. same_results.
  cbn [eq_str String.eqb Ascii.eqb Bool.eqb] in *.
  unfold copy_source in *.
  invert_run. same_results.
  match goal with
  | H : World _ _ _ = append_text _ _ |- _ =>
      apply (f_equal md_text) in H; cbn [md_text] in H; subst s
  end.
  infix_tac.
Qed.

(** The same for a loop without local variables. *)
Lemma for_in_In_unit {A} (body : A -> unit -> M unit) (l : list A) (x : A) :
  (forall y u, writer (body y u)) ->
  In x l ->
  forall u w u' w',
    for_in l body u w = (inr u', w') ->
    exists s S,
      emits (body x tt) (inr tt) s /\ w' = append_text w S /\ Infix s S.
Proof.
  intros Hbody. induction l as [|y l IH]; intros Hin u w u' w' Hrun.
  - contradiction.
  - simpl in Hrun. unfold bind in Hrun.
    destruct (Hbody y u) as (r & s & Hy). rewrite Hy in Hrun.
    destruct r as [e|[]]; [discriminate|].
    destruct Hin as [->|Hin].
    + destruct (writer_for_in body l Hbody tt) as (r' & s' & Hl).
      rewrite Hl in Hrun. inversion Hrun; subst.
      destruct u. exists s, (s ++ s').
      rewrite append_text_append.
      repeat split; auto using Infix_app_l, Infix_refl.
    + destruct (IH Hin _ _ _ _ Hrun) as (s0 & S & H0 & -> & HS).
      exists s0, (s ++ S). rewrite append_text_append.
      repeat split; auto using Infix_app_r.
Qed.

End Activities.

Section Render.

Lemma emits_acc_for_in_In {A} (body : A -> string -> M string) (l : list A) (x : A)
      (D S : string) :
  (forall y, acc_writer (body y)) ->
  In x l ->
  emits_acc (for_in l body) (inr D) S ->
  exists d s, emits_acc (body x) (inr d) s /\ Infix d D /\ Infix s S.
Proof.
  intros Hbody Hin H. apply emits_acc_w0 in H.
  destruct (for_in_In _ _ _ Hbody Hin _ _ _ _ H)
    as (d & s & D' & S' & Hx & HD & HS & Hd & Hs).
  cbn in HD. apply (f_equal md_text) in HS. cbn in HS. subst D' S'.
  now exists d, s.
Qed.

Lemma render_ok_inv (doc : value) (w w' : world) :
  render doc w = (inr tt, w') ->
  exists name properties activities acts D S before after,
    getitem doc "name" = inr name /\
    py_get doc "properties" (PyDict []) = inr properties /\
    getitem properties "activities" = inr activities /\
    py_iter activities = inr acts /\
    emits_acc (for_in acts activity) (inr D) S /\
    (py_in "parameters" properties = inr true ->
     emits (parameters_table properties) (inr tt) after) /\
    md_text w' = md_text w ++ before ++ S ++ diagram_text D ++ after.
Proof.
  intros H. unfold render in H. invert_run.
  match goal with
  | H : (if _ then _ else _) _ = (inr _, ?w1), H' : for_in _ _ _ ?w1 = _ |- _ =>
      apply writer_extends in H;
      [ destruct H as (sd & ->)
      | apply writer_if;
        repeat first [apply writer_bind; [|intros] | apply writer_lift
                     | apply writer_write | apply writer_ret] ]
  end.
  match goal with
  | H : for_in ?l _ _ _ = _ |- _ =>
      destruct (activities_acc_writer l) as ([e|D] & S & Hl);
      rewrite Hl in H; [discriminate|]; injection H as <- <-
  end.
  match goal with
  | Hn : getitem doc "name" = inr ?name,
    Hp : py_get doc _ _ = inr ?props,
    Ha : getitem ?props "activities" = inr ?activities,
    Hi : py_iter ?activities = inr ?acts,
    H : (if ?b then parameters_table ?props else _) _ = (inr tt, _) |- _ =>
      destruct b;
      [ destruct (parameters_table_writer props) as (r & after & Hparams);
        rewrite Hparams in H; injection H as -> <-;
        exists name, props, activities, acts, D, S, (heading_text name ++ sd), after
      | apply ret_ok in H; destruct H as [_ ->];
        exists name, props, activities, acts, D, S, (heading_text name ++ sd), "" ]
  end.
  - repeat (split; [assumption || (intros; assumption)|]).
    unfold diagram_text, heading_text. text_eq.
  - repeat (split; [assumption || congruence|]).
    unfold diagram_text, heading_text. text_eq.
Qed.

End Render.

Section Runs.

Lemma read_pipeline_ok_inv (f : input_file) (w : world) :
  outcome (read_pipeline f w) = inr tt ->
  exists doc w',
    f = Document doc /\
    render doc (World (md_openable w) (md_text w) Opened) = (inr tt, w') /\
    text_after (read_pipeline f w) = md_text w' /\
    handle_after (read_pipeline f w) = Closed.
Proof.
  unfold outcome, text_after, handle_after, read_pipeline, bind, md_open, md_close,
    open_input, json_load, ret, raise.
  destruct (md_openable w) eqn:Ho; [|discriminate].
  destruct f as [| |doc]; try discriminate.
  destruct (render doc _) as [[e|[]] w'] eqn:Hr; cbn [fst snd md_text md_handle];
    [discriminate|].
  intros _. exists doc, w'. auto.
Qed.

(** A run of [read_pipeline] on a document, from [render]. *)
Lemma read_pipeline_render (doc : value) (w : world) s r :
  md_openable w = true ->
  emits (render doc) r s ->
  outcome (read_pipeline (Document doc) w) = r /\
  text_after (read_pipeline (Document doc) w) = md_text w ++ s /\
  handle_after (read_pipeline (Document doc) w)
  = match r with inr _ => Closed | inl _ => Opened end.
Proof.
  intros Hopen H.
  unfold outcome, text_after, handle_after, read_pipeline, bind, md_open.
  rewrite Hopen. cbn -[render]. rewrite H.
  destruct r as [e|[]]; cbn; auto.
Qed.

(** Without [properties.activities], [render] stops at the lookup, after
    the heading and the description. *)
Lemma render_no_activities (doc name : value) (props : list (string * value)) :
  getitem doc "name" = inr name ->
  py_get doc "properties" (PyDict []) = inr (PyDict props) ->
  assoc "activities" props = None ->
  emits (render doc) (inl (KeyError (PyStr "activities")))
        (heading_text name ++ description_text props).
Proof.
  intros Hname Hprops Hacts w.
  unfold render, bind, lift, md_write, ret. rewrite Hname, Hprops.
  cbn [py_in getitem]. unfold description_text, heading_text.
  rewrite Hacts.
  destruct (assoc "description" props) as [d|]; cbn beta iota;
    rewrite ?append_text_append, ?append_nil_r; reflexivity.
Qed.

Lemma render_no_name (doc : value) (e : exn) :
  getitem doc "name" = inl e -> emits (render doc) (inl e) "".
Proof.
  intros Hname w. unfold render, bind, lift. rewrite Hname.
  now rewrite append_text_nil.
Qed.

(** A loop stops at the first round that raises. *)
Lemma for_in_fails_at {A} (body : A -> string -> M string) (pre post : list A) (x : A)
      (D S s : string) (e : exn) :
  (forall y, acc_writer (body y)) ->
  emits_acc (for_in pre body) (inr D) S ->
  emits_acc (body x) (inl e) s ->
  emits_acc (for_in (pre ++ x :: post) body) (inl e) (S ++ s).
Proof.
  intros Hbody. revert D S. induction pre as [|y pre IH]; intros D S Hpre Hx.
  - apply emits_acc_w0 in Hpre. cbn in Hpre. injection Hpre as <- <-.
    intros mc w. cbn [app for_in]. unfold bind. now rewrite Hx.
  - destruct (Hbody y) as (ry & sy & Hy).
    destruct (emits_acc_for_in body pre Hbody) as (r' & s' & Hl).
    pose proof (emits_acc_w0 _ _ _ Hpre) as H0.
    cbn [for_in] in H0. unfold bind in H0. rewrite Hy in H0.
    destruct ry as [ey|dy]; [discriminate|]. cbn [extend] in H0.
    rewrite Hl in H0. destruct r' as [e'|D']; [discriminate|].
    cbn in H0. injection H0 as <- <-.
    specialize (IH _ _ Hl Hx).
    intros mc w. cbn [app for_in]. unfold bind. rewrite Hy. cbn [extend].
    rewrite IH. cbn [extend]. now rewrite append_text_append, append_assoc.
Qed.

(** When the loop over the activities raises, so does [render]. *)
Lemma render_activities_fail (doc name : value) (props : list (string * value))
      (acts : list value) (e : exn) (S : string) :
  getitem doc "name" = inr name ->
  py_get doc "properties" (PyDict []) = inr (PyDict props) ->
  assoc "activities" props = Some (PyList acts) ->
  emits_acc (for_in acts activity) (inl e) S ->
  emits (render doc) (inl e) (heading_text name ++ description_text props ++ S).
Proof.
  intros Hname Hprops Hacts Hloop w.
  unfold render, bind, lift, md_write, ret. rewrite Hname, Hprops.
  cbn [py_in getitem]. unfold description_text, heading_text.
  rewrite Hacts.
  destruct (assoc "description" props) as [d|]; cbn beta iota; cbn [py_iter];
    rewrite Hloop; cbn [extend];
    rewrite ?append_text_append, ?append_assoc; reflexivity.
Qed.

(** When one activity cannot be rendered, the invocation raises. *)
Lemma read_pipeline_fails (doc props activities act : value) (acts : list value) (w : world) :
  py_get doc "properties" (PyDict []) = inr props ->
  getitem props "activities" = inr activities ->
  py_iter activities = inr acts ->
  In act acts ->
  (forall d s, ~ emits_acc (activity act) (inr d) s) ->
  exists e, outcome (read_pipeline (Document doc) w) = inl e.
Proof.
  intros Hprops Hacts Hiter Hin Hact.
  destruct (outcome (read_pipeline (Document doc) w)) as [e|[]] eqn:Hout; [eauto|].
  exfalso.
  destruct (read_pipeline_ok_inv _ _ Hout) as (doc' & w' & Hdoc & Hrender & _).
  injection Hdoc as <-.
  destruct (render_ok_inv _ _ _ Hrender)
    as (name & props' & activities' & acts' & D & S & before & after
        & Hn & Hp & Ha & Hi & Hloop & _).
  same_results.
  destruct (emits_acc_for_in_In _ _ _ _ _ activity_acc_writer Hin Hloop)
    as (d & s & Hd & _).
  exact (Hact _ _ Hd).
Qed.

Lemma activity_needs_dependsOn (act : value) (e : exn) (d s : string) :
  getitem act "dependsOn" = inl e -> ~ emits_acc (activity act) (inr d) s.
Proof.
  intros Hdeps H. apply emits_acc_w0 in H. unfold activity in H.
  invert_run. same_results.
Qed.

Lemma activity_needs_condition (act dep : value) (deps : list value) (d s : string) :
  getitem act "dependsOn" = inr (PyList deps) ->
  In dep deps ->
  getitem dep "dependencyConditions" = inr (PyList []) ->
  ~ emits_acc (activity act) (inr d) s.
Proof.
  intros Hdeps Hin Hconds H. apply emits_acc_w0 in H. unfold activity in H.
  invert_run. same_results.
  cbn [py_len] in *.
  match goal with H : inr _ = inr _ |- _ => injection H as <- end.
  destruct deps as [|dep0 deps']; [contradiction|].
  match goal with H : (if (0 <? _)%nat then _ else _) _ = (inr _, _) |- _ =>
    cbn [List.length Nat.ltb Nat.leb] in H end.
  invert_run. same_results.
  cbn [py_iter] in *.
  match goal with H : inr _ = inr _ |- _ => injection H as <- end.
  match goal with
  | H : for_in _ (dependency ?n) _ _ = (inr _, _) |- _ =>
      destruct (for_in_In _ _ dep (dependency_acc_writer n) Hin _ _ _ _ H)
        as (d' & s' & D & S & Hdep & _)
  end.
  apply emits_acc_w0 in Hdep. unfold dependency in Hdep.
  invert_run. same_results. discriminate.
Qed.

(** An activity without [dependsOn] raises [KeyError] at [len(act['dependsOn'])],
    after its name, type and description were written. *)
Lemma activity_no_dependsOn (akvs : list (string * value)) (n : string) (t : value) :
  assoc "name" akvs = Some (PyStr n) ->
  assoc "type" akvs = Some t ->
  assoc "dependsOn" akvs = None ->
  emits_acc (activity (PyDict akvs)) (inl (KeyError (PyStr "dependsOn")))
    ((nl ++ " - **Name:** " ++ n ++ " " ++ nl)
     ++ (nl ++ "   **Type:** " ++ py_str t ++ " " ++ nl)
     ++ match assoc "description" akvs with
        | Some d => nl ++ "   **Description:** " ++ py_str d ++ " " ++ nl
        | None => ""
        end).
Proof.
  intros Hn Ht Hd mc w.
  unfold activity, bind, lift, md_write, ret.
  cbn [getitem py_in]. rewrite Hn, Ht, Hd. cbn [py_replace py_str].
  destruct (assoc "description" akvs) as [d|]; cbn beta iota;
    rewrite ?append_text_append, ?append_nil_r; reflexivity.
Qed.

(** With an empty list of conditions, a dependency raises [IndexError] at
    [dep['dependencyConditions'][0]], before anything is written for it. *)
Lemma dependency_no_condition (activity_name dep : value) (a : string) :
  getitem dep "activity" = inr (PyStr a) ->
  getitem dep "dependencyConditions" = inr (PyList []) ->
  emits_acc (dependency activity_name dep) (inl IndexError) "".
Proof.
  intros Ha Hc mc w. unfold dependency, bind, lift.
  rewrite Ha, Hc. cbn. now rewrite append_text_nil.
Qed.

Lemma succeeds_for_in (pre : list value) :
  succeeds (for_in pre activity "" w0) = true ->
  exists D S, emits_acc (for_in pre activity) (inr D) S.
Proof.
  destruct (activities_acc_writer pre) as ([e|D] & S & H); intros Hok.
  - unfold succeeds in Hok. rewrite H in Hok. discriminate.
  - eauto.
Qed.

Lemma emits_w0 {A} (m : M A) (r : result A) (s : string) :
  emits m r s -> m w0 = (r, World true s Opened).
Proof. intros H. rewrite H. reflexivity. Qed.

(** When the loop over the activities ends, [render] writes the diagram and
    goes on to the parameters. *)
Lemma render_activities_ok (doc name : value) (props : list (string * value))
      (acts : list value) (D S after : string) (r : result unit) :
  getitem doc "name" = inr name ->
  py_get doc "properties" (PyDict []) = inr (PyDict props) ->
  assoc "activities" props = Some (PyList acts) ->
  emits_acc (for_in acts activity) (inr D) S ->
  emits (match assoc "parameters" props with
         | Some _ => parameters_table (PyDict props)
         | None => ret tt
         end) r after ->
  emits (render doc) r
        (heading_text name ++ description_text props ++ S ++ diagram_text D ++ after).
Proof.
  intros Hname Hprops Hacts Hloop Hparams w.
  unfold render, bind, lift, md_write. rewrite Hname, Hprops.
  cbn [py_in getitem]. unfold description_text, heading_text, diagram_text.
  rewrite Hacts.
  destruct (assoc "parameters" props) as [ps|].
  - destruct (assoc "description" props) as [d|]; unfold ret;
      cbn beta iota; cbn [py_iter];
      rewrite Hloop; cbn [extend]; rewrite Hparams;
      destruct r as [e|[]];
      rewrite ?append_text_append, ?append_assoc; reflexivity.
  - apply emits_w0 in Hparams. unfold ret in Hparams. injection Hparams as <- <-.
    destruct (assoc "description" props) as [d|]; unfold ret;
      cbn beta iota; cbn [py_iter];
      rewrite Hloop; cbn [extend];
      rewrite ?append_text_append, ?append_assoc, ?append_nil_r; reflexivity.
Qed.

(** What a successful invocation has written. *)
Lemma successful_run (doc props : value) (w : world) :
  outcome (read_pipeline (Document doc) w) = inr tt ->
  py_get doc "properties" (PyDict []) = inr props ->
  exists activities acts D S before after,
    getitem props "activities" = inr activities /\
    py_iter activities = inr acts /\
    emits_acc (for_in acts activity) (inr D) S /\
    (py_in "parameters" props = inr true ->
     emits (parameters_table props) (inr tt) after) /\
    text_after (read_pipeline (Document doc) w)
    = md_text w ++ before ++ S ++ diagram_text D ++ after.
Proof.
  intros Hout Hprops.
  destruct (read_pipeline_ok_inv _ _ Hout) as (doc' & w' & Hdoc & Hrender & Htext & _).
  injection Hdoc as <-.
  destruct (render_ok_inv _ _ _ Hrender)
    as (name & props' & activities & acts & D & S & before & after
        & Hn & Hp & Ha & Hi & Hloop & Hparams & Hw').
  same_results.
  exists activities, acts, D, S, before, after. rewrite Htext, Hw'. auto.
Qed.

(** What a successful invocation has written for one of the activities. *)
Lemma successful_run_activity (doc props act : value) (acts : list value) (w : world) :
  outcome (read_pipeline (Document doc) w) = inr tt ->
  py_get doc "properties" (PyDict []) = inr props ->
  getitem props "activities" = inr (PyList acts) ->
  In act acts ->
  exists d s D,
    emits_acc (activity act) (inr d) s /\
    Infix d D /\
    Infix s (text_after (read_pipeline (Document doc) w)) /\
    Infix (diagram_text D) (text_after (read_pipeline (Document doc) w)).
Proof.
  intros Hout Hprops Hacts Hin.
  destruct (successful_run _ _ _ Hout Hprops)
    as (activities & acts' & D & S & before & after & Ha & Hi & Hloop & _ & Htext).
  same_results. cbn [py_iter] in Hi. injection Hi as <-.
  destruct (emits_acc_for_in_In _ _ _ _ _ activity_acc_writer Hin Hloop)
    as (d & s & Hact & Hd & Hs).
  exists d, s, D. rewrite Htext. repeat split; auto.
  - apply Infix_app_r, Infix_app_r, Infix_app_l, Hs.
  - apply Infix_app_r, Infix_app_r, Infix_app_r, Infix_app_l, Infix_refl.
Qed.

(** Each parameter has its row in the table. *)
Lemma parameters_table_rows (props info : value) (params : list (string * value))
      (p after : string) :
  emits (parameters_table props) (inr tt) after ->
  py_get props "parameters" (PyDict []) = inr (PyDict params) ->
  In (p, info) params ->
  exists ty dv,
    py_get info "type" PyNone = inr ty /\
    py_get info "defaultValue" PyNone = inr dv /\
    Infix (nl ++ " |" ++ p ++ "|" ++ py_str ty ++ "|" ++ py_str dv ++ "|") after.
Proof.
  intros H Hparams Hin. apply emits_w0 in H. unfold parameters_table in H.
  invert_run. same_results. cbn [py_items] in *.
  match goal with H : inr _ = inr _ |- _ => injection H as <- end.
  match goal with
  | H : for_in _ parameter_row _ _ = (inr _, _) |- _ =>
      destruct (for_in_In_unit _ _ _ parameter_row_writer Hin _ _ _ _ H)
        as (s & S & Hrow & Hw & Hs)
  end.
  apply emits_w0 in Hrow. unfold parameter_row in Hrow. invert_run.
  match goal with
  | H : World _ _ _ = append_text w0 _ |- _ =>
      apply (f_equal md_text) in H; cbn in H; subst s
  end.
  apply (f_equal md_text) in Hw. rewrite !md_text_append_text in Hw. cbn [md_text] in Hw.
  subst after. eauto 6 using Infix_app_r.
Qed.

End Runs.

(** ** Concrete runs *)

Example run_sample_copy :
  read_pipeline (Document sample_copy) (start true "")
  = (inr tt,
     World true
       (nl ++ nl ++ " ## Copy It " ++ nl
        ++ nl ++ " - **Name:** Load Data " ++ nl
        ++ nl ++ "   **Type:** Copy " ++ nl
        ++ nl ++ "   **Data Source Type:** SqlSource " ++ nl
        ++ nl ++ "   **SQL Statement:**  " ++ nl
        ++ nl ++ "   ```SQL " ++ nl ++ "   SELECT 1 " ++ nl ++ "   ```"
        ++ nl ++ nl ++ " ### Activities Diagram " ++ nl
        ++ nl ++ " ```mermaid" ++ nl ++ "graph LR;" ++ nl
        ++ "Load_Data(Load Data);" ++ nl ++ " ```")
       Closed).
Proof. reflexivity. Qed.

Example run_sample :
  read_pipeline (Document sample) (start true "")
  = (inr tt,
     World true
       (nl ++ nl ++ " ## Daily Load " ++ nl
        ++ nl ++ " **Description:** Loads the data " ++ nl
        ++ nl ++ nl ++ " ### Steps " ++ nl
        ++ nl ++ " - **Name:** Load Data " ++ nl
        ++ nl ++ "   **Type:** Copy " ++ nl
        ++ nl ++ "   **Data Source Type:** SqlSource " ++ nl
        ++ nl ++ "   **SQL Statement:**  " ++ nl
        ++ nl ++ "   ```SQL " ++ nl ++ "   SELECT 1 " ++ nl ++ "   ```"
        ++ nl ++ " - **Name:** Run Proc " ++ nl
        ++ nl ++ "   **Type:** SqlServerStoredProcedure " ++ nl
        ++ nl ++ "   **Description:** runs it " ++ nl
        ++ nl ++ "   **Dependencies:**"
        ++ nl ++ "   * [Load Data](#Load-Data) (Succeeded) " ++ nl
        ++ nl ++ nl ++ " ### Activities Diagram " ++ nl
        ++ nl ++ " ```mermaid" ++ nl ++ "graph LR;" ++ nl
        ++ "Load_Data(Load Data);" ++ nl
        ++ "Run_Proc(Run Proc);" ++ nl
        ++ "Load_Data --> Run_Proc;" ++ nl ++ " ```"
        ++ nl ++ nl ++ " ### Parameters " ++ nl
        ++ nl ++ " | Name | Type | Default Value |"
        ++ nl ++ " |---|---|---|"
        ++ nl ++ " |windowStart|String|2021-01-01|"
        ++ nl ++ " |retries|Int|None|")
       Closed).
Proof. reflexivity. Qed.

(** An exception in the middle: the second activity has no [dependsOn];
    what was written before stays, and [md] is not closed. *)
Example run_sample_no_dependsOn :
  read_pipeline (Document sample_no_dependsOn) (start true "")
  = (inl (KeyError (PyStr "dependsOn")),
     World true
       (nl ++ nl ++ " ## Daily Load " ++ nl
        ++ nl ++ " - **Name:** Load Data " ++ nl
        ++ nl ++ "   **Type:** Copy " ++ nl
        ++ nl ++ "   **Data Source Type:** SqlSource " ++ nl
        ++ nl ++ "   **SQL Statement:**  " ++ nl
        ++ nl ++ "   ```SQL " ++ nl ++ "   SELECT 1 " ++ nl ++ "   ```"
        ++ nl ++ " - **Name:** Wait A Bit " ++ nl
        ++ nl ++ "   **Type:** Wait " ++ nl)
       Opened).
Proof. reflexivity. Qed.

(** The objects the JSON decoder can build besides well-formed pipelines:
    [str] of nested values, and the first character of a string taken as
    the list of conditions. *)
Example str_of_nested :
  py_str (PyDict [("a", PyList [PyInt 0; PyInt (-12); PyStr "x'y"; PyNone; PyBool true])])
  = "{'a': [0, -12, " ++ String dquote ("x'y" ++ String dquote ", None, True]}").
Proof. reflexivity. Qed.

Example first_character : getitem0 (PyStr "Succeeded") = inr (PyStr "S").
Proof. reflexivity. Qed.

(** * The claims *)

(** C1: after a run without exception, for an activity named [n] with a
    dependency on ["Load Data"] whose first condition is ["Succeeded"], the
    file holds the bulleted line with the link target [#Load-Data] and
    [(Succeeded)], and the diagram written under its heading holds the edge
    from [Load_Data] to the name [n] with [_] for spaces. *)
Theorem C1_dependency_line_and_edge
        (doc props act dep : value) (acts deps more : list value) (n : string) (w : world) :
  outcome (read_pipeline (Document doc) w) = inr tt ->
  py_get doc "properties" (PyDict []) = inr props ->
  getitem props "activities" = inr (PyList acts) ->
  In act acts ->
  getitem act "name" = inr (PyStr n) ->
  getitem act "dependsOn" = inr (PyList deps) ->
  In dep deps ->
  getitem dep "activity" = inr (PyStr "Load Data") ->
  getitem dep "dependencyConditions" = inr (PyList (PyStr "Succeeded" :: more)) ->
  Infix (nl ++ "   * [Load Data](#Load-Data) (Succeeded) " ++ nl)
        (text_after (read_pipeline (Document doc) w)) /\
  exists declarations,
    Infix ("Load_Data --> " ++ replace space "_" n ++ ";" ++ nl) declarations /\
    Infix (diagram_text declarations) (text_after (read_pipeline (Document doc) w)).
Proof.
  intros Hout Hprops Hacts Hin Hn Hdeps Hdep Ha Hc.
  destruct (successful_run_activity _ _ _ _ _ Hout Hprops Hacts Hin)
    as (d & s & D & Hact & Hd & Hs & HD).
  destruct (activity_dependency _ _ _ _ _ _ (PyStr "Succeeded") _ _
              Hact Hn Hdeps Hdep Ha Hc eq_refl) as [Hline Hedge].
  split.
  - eapply Infix_trans; [exact Hline | exact Hs].
  - exists D. split; [|exact HD].
    eapply Infix_trans; [exact Hedge | exact Hd].
Qed.

Lemma C1_witness :
  Infix (nl ++ "   * [Load Data](#Load-Data) (Succeeded) " ++ nl)
        (text_after (read_pipeline (Document sample) (start true ""))) /\
  exists declarations,
    Infix ("Load_Data --> Run_Proc;" ++ nl) declarations /\
    Infix (diagram_text declarations)
          (text_after (read_pipeline (Document sample) (start true ""))).
Proof.
  refine (C1_dependency_line_and_edge
            sample (PyDict sample_properties) run_proc load_data_succeeded
            [load_data; run_proc] [load_data_succeeded] [] "Run Proc" (start true "")
            eq_refl eq_refl eq_refl _ eq_refl eq_refl _ eq_refl eq_refl).
  - right. left. reflexivity.
  - left. reflexivity.
Defined.

(** C2, as stated: the handle is closed after every invocation.  A document
    with a name and nothing else makes the lookup of the activities fail,
    and the handle is left open. *)
Lemma C2_counterexample :
  let r := read_pipeline (Document (PyDict [("name", PyStr "P")])) (start true "") in
  outcome r = inl (KeyError (PyStr "activities")) /\
  handle_after r = Opened /\
  handle_after r <> Closed.
Proof. cbn. repeat split; discriminate. Qed.

(** C2, amended: [md.close()] is reached exactly when no exception was
    raised.  After an invocation without exception the handle is closed;
    after an exception it is still open, or was never obtained when the
    markdown file itself could not be opened. *)
Theorem C2_closed_only_on_success (f : input_file) (openable : bool) (text : string) :
  let r := read_pipeline f (start openable text) in
  (outcome r = inr tt /\ handle_after r = Closed) \/
  (exists e, outcome r = inl e /\
             handle_after r = if openable then Opened else NotOpened).
Proof.
  destruct openable.
  - destruct (read_pipeline_appends f) as (r & s & h & Hh & Hrun).
    cbn zeta. unfold outcome, handle_after. rewrite Hrun. cbn [fst snd md_handle].
    destruct r as [e|[]].
    + right. exists e. split; [reflexivity|].
      destruct f as [| |doc].
      * specialize (Hrun ""). rewrite read_pipeline_unreadable in Hrun. congruence.
      * specialize (Hrun ""). rewrite read_pipeline_malformed in Hrun. congruence.
      * destruct (render_writer doc) as (r' & s' & H).
        specialize (Hrun "").
        rewrite (read_pipeline_document _ _ _ _ H) in Hrun.
        destruct r' as [e'|[]]; congruence.
    + left. split; [reflexivity|]. now apply Hh.
  - right. exists OSError. now rewrite read_pipeline_not_openable.
Qed.

(** C3, as stated: a fenced block tagged [sql] whose body is [SELECT 1].
    The file after rendering one [Copy] activity with that query holds no
    fence tagged [sql] and no line that is [SELECT 1] alone. *)
Lemma C3_counterexample :
  let text := text_after (read_pipeline (Document sample_copy) (start true "")) in
  outcome (read_pipeline (Document sample_copy) (start true "")) = inr tt /\
  ~ Infix "```sql" text /\
  ~ Infix (nl ++ "SELECT 1" ++ nl) text.
Proof.
  cbn zeta. split; [reflexivity|].
  split; apply not_contains_Infix; vm_compute; reflexivity.
Qed.

(** C3, amended: after a run without exception, for an activity of type
    ["Copy"] whose [sqlReaderQuery.value] is ["SELECT 1"], the file holds
    the fence written by the function: the tag is [SQL] in capitals followed
    by a space, the body line is the query text as it is, after three spaces
    and before one space, and the fences are indented by three spaces. *)
Theorem C3_copy_sql_block
        (doc props act tp src q : value) (acts : list value) (w : world) :
  outcome (read_pipeline (Document doc) w) = inr tt ->
  py_get doc "properties" (PyDict []) = inr props ->
  getitem props "activities" = inr (PyList acts) ->
  In act acts ->
  getitem act "type" = inr (PyStr "Copy") ->
  getitem act "typeProperties" = inr tp ->
  getitem tp "source" = inr src ->
  getitem src "sqlReaderQuery" = inr q ->
  getitem q "value" = inr (PyStr "SELECT 1") ->
  Infix (nl ++ "   ```SQL " ++ nl ++ "   SELECT 1 " ++ nl ++ "   ```")
        (text_after (read_pipeline (Document doc) w)).
Proof.
  intros Hout Hprops Hacts Hin Ht Htp Hsrc Hq Hv.
  destruct (successful_run_activity _ _ _ _ _ Hout Hprops Hacts Hin)
    as (d & s & D & Hact & _ & Hs & _).
  eapply Infix_trans; [|exact Hs].
  exact (activity_copy _ _ _ _ _ _ _ Hact Ht Htp Hsrc Hq Hv).
Qed.

Lemma C3_witness :
  Infix (nl ++ "   ```SQL " ++ nl ++ "   SELECT 1 " ++ nl ++ "   ```")
        (text_after (read_pipeline (Document sample_copy) (start true ""))).
Proof.
  refine (C3_copy_sql_block
            sample_copy (PyDict [("activities", PyList [load_data])]) load_data
            (PyDict [("source", PyDict [
               ("type", PyStr "SqlSource");
               ("sqlReaderQuery", PyDict [("value", PyStr "SELECT 1")])])])
            (PyDict [("type", PyStr "SqlSource");
                     ("sqlReaderQuery", PyDict [("value", PyStr "SELECT 1")])])
            (PyDict [("value", PyStr "SELECT 1")])
            [load_data] (start true "")
            eq_refl eq_refl eq_refl _ eq_refl eq_refl eq_refl eq_refl eq_refl).
  left. reflexivity.
Defined.

(** C4: when the pipeline file cannot be opened, or [json.load] fails on
    it, the exception reaches the caller and the text of the markdown file
    is what it was before the invocation. *)
Theorem C4_unreadable_input_writes_nothing (openable : bool) (text : string) :
  (exists e, outcome (read_pipeline Unreadable (start openable text)) = inl e) /\
  text_after (read_pipeline Unreadable (start openable text)) = text /\
  (exists e, outcome (read_pipeline Malformed (start openable text)) = inl e) /\
  text_after (read_pipeline Malformed (start openable text)) = text /\
  outcome (read_pipeline Unreadable (start true text)) = inl OSError /\
  outcome (read_pipeline Malformed (start true text)) = inl JSONDecodeError.
Proof.
  destruct openable; cbn; repeat split; eauto.
Qed.

(** C5: without [name] the run raises [KeyError('name')]; with a name and
    properties that have no [activities] it raises [KeyError('activities')];
    and with a dependency whose [dependencyConditions] is the empty list the
    run raises, the dependency itself raising [IndexError] at
    [dep['dependencyConditions'][0]].  Nothing catches these: they are the
    outcome of the invocation. *)
Theorem C5_lookup_errors_propagate
        (doc name props_v activities act dep : value)
        (kvs props : list (string * value)) (acts deps : list value)
        (a : string) (w : world) :
  md_openable w = true ->
  doc = PyDict kvs ->
  (assoc "name" kvs = None ->
   outcome (read_pipeline (Document doc) w) = inl (KeyError (PyStr "name"))) /\
  (assoc "name" kvs = Some name ->
   py_get doc "properties" (PyDict []) = inr (PyDict props) ->
   assoc "activities" props = None ->
   outcome (read_pipeline (Document doc) w) = inl (KeyError (PyStr "activities"))) /\
  (py_get doc "properties" (PyDict []) = inr props_v ->
   getitem props_v "activities" = inr activities ->
   py_iter activities = inr acts ->
   In act acts ->
   getitem act "dependsOn" = inr (PyList deps) ->
   In dep deps ->
   getitem dep "dependencyConditions" = inr (PyList []) ->
   (exists e, outcome (read_pipeline (Document doc) w) = inl e) /\
   (getitem dep "activity" = inr (PyStr a) ->
    forall activity_name mc w',
      dependency activity_name dep mc w' = (inl IndexError, w'))).
Proof.
  intros Hopen ->. split; [|split].
  - intros Hname.
    apply (read_pipeline_render _ w "" (inl (KeyError (PyStr "name"))) Hopen).
    apply render_no_name. cbn [getitem]. now rewrite Hname.
  - intros Hname Hprops Hacts.
    eapply (read_pipeline_render _ w _ (inl (KeyError (PyStr "activities"))) Hopen).
    eapply render_no_activities; eauto. cbn [getitem]. now rewrite Hname.
  - intros Hprops Hacts Hiter Hin Hdeps Hdep Hconds. split.
    + eapply read_pipeline_fails; eauto.
      intros d s. eapply activity_needs_condition; eauto.
    + intros Ha activity_name mc w'.
      rewrite (dependency_no_condition activity_name dep a Ha Hconds mc w').
      now rewrite append_text_nil.
Qed.

Lemma C5_witness :
  outcome (read_pipeline (Document (PyDict [("properties", PyDict [])])) (start true ""))
  = inl (KeyError (PyStr "name")) /\
  outcome (read_pipeline (Document (PyDict [("name", PyStr "P")])) (start true ""))
  = inl (KeyError (PyStr "activities")) /\
  (exists e, outcome (read_pipeline (Document sample_no_condition) (start true "")) = inl e) /\
  dependency (PyStr "Run Proc") no_condition "" w0 = (inl IndexError, w0).
Proof.
  split; [|split; [|split]].
  - exact (proj1 (C5_lookup_errors_propagate
                    (PyDict [("properties", PyDict [])]) PyNone PyNone PyNone PyNone PyNone
                    [("properties", PyDict [])] [] [] [] "" (start true "")
                    eq_refl eq_refl) eq_refl).
  - exact (proj1 (proj2 (C5_lookup_errors_propagate
                    (PyDict [("name", PyStr "P")]) (PyStr "P") PyNone PyNone PyNone PyNone
                    [("name", PyStr "P")] [] [] [] "" (start true "")
                    eq_refl eq_refl)) eq_refl eq_refl eq_refl).
  - refine (proj1 (proj2 (proj2 (C5_lookup_errors_propagate
                    sample_no_condition PyNone
                    (PyDict [("activities", PyList [load_data; run_proc_no_condition])])
                    (PyList [load_data; run_proc_no_condition])
                    run_proc_no_condition no_condition
                    _ [] [load_data; run_proc_no_condition] [no_condition]
                    "Load Data" (start true "")
                    eq_refl eq_refl)) eq_refl eq_refl eq_refl _ eq_refl _ eq_refl)).
    + right. left. reflexivity.
    + left. reflexivity.
  - refine (proj2 (proj2 (proj2 (C5_lookup_errors_propagate
                    sample_no_condition PyNone
                    (PyDict [("activities", PyList [load_data; run_proc_no_condition])])
                    (PyList [load_data; run_proc_no_condition])
                    run_proc_no_condition no_condition
                    _ [] [load_data; run_proc_no_condition] [no_condition]
                    "Load Data" (start true "")
                    eq_refl eq_refl)) eq_refl eq_refl eq_refl _ eq_refl _ eq_refl)
                  eq_refl (PyStr "Run Proc") "" w0).
    + right. left. reflexivity.
    + left. reflexivity.
Defined.

(** C6: with [properties.activities] the empty list, the text appended to
    the file is the heading, the description if there is one, then the
    [Activities Diagram] heading followed by a [mermaid] block that holds
    [graph LR;] and no node or edge declaration, then what the parameters
    add; without parameters the run ends there, without exception. *)
Theorem C6_empty_activities_diagram
        (kvs props : list (string * value)) (name : value) (w : world) :
  md_openable w = true ->
  assoc "name" kvs = Some name ->
  assoc "properties" kvs = Some (PyDict props) ->
  assoc "activities" props = Some (PyList []) ->
  exists after,
    text_after (read_pipeline (Document (PyDict kvs)) w)
    = md_text w ++ heading_text name ++ description_text props
      ++ (nl ++ nl ++ " ### Activities Diagram " ++ nl
             ++ nl ++ " ```mermaid" ++ nl ++ "graph LR;" ++ nl ++ " ```")
      ++ after /\
    (assoc "parameters" props = None ->
     after = "" /\ outcome (read_pipeline (Document (PyDict kvs)) w) = inr tt).
Proof.
  intros Hopen Hname Hprops Hacts.
  assert (Hloop : emits_acc (for_in [] activity) (inr "") "").
  { intros mc w1. cbn. now rewrite append_nil_r, append_text_nil. }
  assert (Hparams : exists r after,
             emits (match assoc "parameters" props with
                    | Some _ => parameters_table (PyDict props)
                    | None => ret tt
                    end) r after /\
             (assoc "parameters" props = None -> after = "" /\ r = inr tt)).
  { destruct (assoc "parameters" props) as [ps|].
    - destruct (parameters_table_writer (PyDict props)) as (r & after & H).
      exists r, after. split; [exact H | discriminate].
    - exists (inr tt), "". split; [|auto].
      intros w1. unfold ret. now rewrite append_text_nil. }
  destruct Hparams as (r & after & Hparams & Hnone).
  assert (Hrender : emits (render (PyDict kvs)) r
                      (heading_text name ++ description_text props ++ ""
                         ++ diagram_text "" ++ after)).
  { apply render_activities_ok with (acts := []); auto.
    - cbn [getitem]. now rewrite Hname.
    - cbn [py_get]. now rewrite Hprops. }
  destruct (read_pipeline_render _ w _ _ Hopen Hrender) as (Hout & Htext & _).
  exists after. split.
  - rewrite Htext. unfold diagram_text. text_eq.
  - intros Hno. destruct (Hnone Hno) as [-> ->]. auto.
Qed.

Lemma C6_witness :
  text_after (read_pipeline (Document sample_empty) (start true ""))
  = nl ++ nl ++ " ## Empty " ++ nl
    ++ nl ++ nl ++ " ### Activities Diagram " ++ nl
    ++ nl ++ " ```mermaid" ++ nl ++ "graph LR;" ++ nl ++ " ```"
  /\ outcome (read_pipeline (Document sample_empty) (start true "")) = inr tt.
Proof.
  destruct (C6_empty_activities_diagram
              [("name", PyStr "Empty"); ("properties", PyDict [("activities", PyList [])])]
              [("activities", PyList [])] (PyStr "Empty") (start true "")
              eq_refl eq_refl eq_refl eq_refl) as (after & Htext & Hnone).
  destruct (Hnone eq_refl) as [-> Hout].
  split; [|exact Hout].
  exact (eq_trans Htext eq_refl).
Defined.

(** C7: after a run without exception, a parameter [windowStart] of type
    ["String"] with default ["2021-01-01"] has the row
    [|windowStart|String|2021-01-01|] in the file; and a parameter without
    [defaultValue] has a row whose last cell is [None], its row being
    written without exception. *)
Theorem C7_parameter_rows
        (doc : value) (props params : list (string * value)) (w : world) :
  outcome (read_pipeline (Document doc) w) = inr tt ->
  py_get doc "properties" (PyDict []) = inr (PyDict props) ->
  assoc "parameters" props = Some (PyDict params) ->
  (forall info,
      In ("windowStart", PyDict info) params ->
      assoc "type" info = Some (PyStr "String") ->
      assoc "defaultValue" info = Some (PyStr "2021-01-01") ->
      Infix "|windowStart|String|2021-01-01|"
            (text_after (read_pipeline (Document doc) w))) /\
  (forall p info,
      In (p, PyDict info) params ->
      assoc "defaultValue" info = None ->
      exists ty,
        py_get (PyDict info) "type" PyNone = inr ty /\
        Infix ("|" ++ p ++ "|" ++ py_str ty ++ "|None|")
              (text_after (read_pipeline (Document doc) w)) /\
        forall u w',
          parameter_row (p, PyDict info) u w'
          = (inr tt, append_text w' (nl ++ " |" ++ p ++ "|" ++ py_str ty ++ "|None|"))).
Proof.
  intros Hout Hprops Hparams.
  destruct (successful_run _ _ _ Hout Hprops)
    as (activities & acts & D & S & before & after & _ & _ & _ & Htable & Htext).
  assert (Hin_params : py_in "parameters" (PyDict props) = inr true).
  { cbn [py_in]. now rewrite Hparams. }
  specialize (Htable Hin_params).
  assert (Hget : py_get (PyDict props) "parameters" (PyDict []) = inr (PyDict params)).
  { cbn [py_get]. now rewrite Hparams. }
  assert (Hafter : forall t, Infix t after ->
                             Infix t (text_after (read_pipeline (Document doc) w))).
  { intros t Ht. rewrite Htext.
    now apply Infix_app_r, Infix_app_r, Infix_app_r, Infix_app_r. }
  split.
  - intros info Hin Hty Hdv.
    destruct (parameters_table_rows _ _ _ _ _ Htable Hget Hin) as (ty & dv & Ht & Hd & Hrow).
    cbn [py_get] in Ht, Hd. rewrite Hty in Ht. rewrite Hdv in Hd.
    injection Ht as <-. injection Hd as <-.
    apply Hafter. eapply Infix_trans; [|exact Hrow].
    exists (nl ++ " "), "". cbn. reflexivity.
  - intros p info Hin Hdv.
    destruct (parameters_table_rows _ _ _ _ _ Htable Hget Hin) as (ty & dv & Ht & Hd & Hrow).
    exists ty. split; [exact Ht|].
    assert (dv = PyNone) as ->.
    { cbn [py_get] in Hd. rewrite Hdv in Hd. now injection Hd as <-. }
    split.
    + apply Hafter. eapply Infix_trans; [|exact Hrow].
      exists (nl ++ " "), "". cbn [py_str py_repr].
      rewrite !append_assoc, append_nil_r. reflexivity.
    + intros u w'. unfold parameter_row, bind, lift, md_write.
      rewrite Ht. cbn [py_get]. rewrite Hdv. reflexivity.
Qed.

Lemma C7_witness :
  Infix "|windowStart|String|2021-01-01|"
        (text_after (read_pipeline (Document sample) (start true ""))) /\
  Infix "|retries|Int|None|"
        (text_after (read_pipeline (Document sample) (start true ""))).
Proof.
  pose proof (C7_parameter_rows sample sample_properties sample_parameters (start true "")
                                eq_refl eq_refl eq_refl) as [Hdefault Hnone].
  split.
  - apply (Hdefault [("type", PyStr "String"); ("defaultValue", PyStr "2021-01-01")]).
    + left. reflexivity.
    + reflexivity.
    + reflexivity.
  - destruct (Hnone "retries" [("type", PyStr "Int")]) as (ty & Hty & Hrow & _).
    + right. left. reflexivity.
    + reflexivity.
    + injection Hty as <-. exact Hrow.
Defined.

(** C8: when an invocation on an empty markdown file ends without
    exception, a second invocation with the same pipeline file on the file
    it left ends without exception too, and the file then holds the text of
    the first invocation twice. *)
Theorem C8_rendering_twice_duplicates (doc : value) :
  outcome (read_pipeline (Document doc) (start true "")) = inr tt ->
  let once := text_after (read_pipeline (Document doc) (start true "")) in
  outcome (read_pipeline (Document doc) (start true once)) = inr tt /\
  text_after (read_pipeline (Document doc) (start true once)) = once ++ once.
Proof.
  destruct (read_pipeline_appends (Document doc)) as (r & s & h & _ & Hrun).
  intros Hout. cbn zeta. unfold outcome, text_after in *.
  rewrite (Hrun "") in *. cbn [fst snd md_text] in *.
  rewrite (Hrun ("" ++ s)). cbn [fst snd md_text]. auto.
Qed.

Lemma C8_witness :
  let once := text_after (read_pipeline (Document sample) (start true "")) in
  outcome (read_pipeline (Document sample) (start true once)) = inr tt /\
  text_after (read_pipeline (Document sample) (start true once)) = once ++ once.
Proof. exact (C8_rendering_twice_duplicates sample eq_refl). Defined.

(** C9: a document with a [name] and no [properties] key gets the empty
    dictionary for its properties, so the run is the one of a document whose
    properties have no [activities]: the heading is written, then the lookup
    of the activities raises [KeyError], and the heading stays in the file. *)
Theorem C9_missing_properties_leaves_heading
        (kvs : list (string * value)) (name : value) (text : string) :
  assoc "name" kvs = Some name ->
  assoc "properties" kvs = None ->
  read_pipeline (Document (PyDict kvs)) (start true text)
  = (inl (KeyError (PyStr "activities")),
     World true (text ++ nl ++ nl ++ " ## " ++ py_str name ++ " " ++ nl) Opened)
  /\ read_pipeline (Document (PyDict kvs)) (start true text)
     = read_pipeline (Document (PyDict (("properties", PyDict []) :: kvs))) (start true text).
Proof.
  intros Hname Hprops.
  assert (H1 : emits (render (PyDict kvs)) (inl (KeyError (PyStr "activities")))
                     (heading_text name ++ description_text [])).
  { apply render_no_activities; cbn [getitem py_get]; rewrite ?Hname, ?Hprops; reflexivity. }
  assert (H2 : emits (render (PyDict (("properties", PyDict []) :: kvs)))
                     (inl (KeyError (PyStr "activities")))
                     (heading_text name ++ description_text [])).
  { apply render_no_activities; cbn [getitem py_get assoc String.eqb Ascii.eqb Bool.eqb];
      rewrite ?Hname; reflexivity. }
  rewrite (read_pipeline_document _ text _ _ H1), (read_pipeline_document _ text _ _ H2).
  split; [|reflexivity].
  unfold description_text, heading_text. cbn [assoc].
  rewrite append_nil_r. reflexivity.
Qed.

Lemma C9_witness :
  read_pipeline (Document (PyDict [("name", PyStr "P")])) (start true "old")
  = (inl (KeyError (PyStr "activities")),
     World true ("old" ++ nl ++ nl ++ " ## " ++ "P" ++ " " ++ nl) Opened).
Proof.
  exact (proj1 (C9_missing_properties_leaves_heading
                  [("name", PyStr "P")] (PyStr "P") "old" eq_refl eq_refl)).
Defined.

(** C10: an activity without the [dependsOn] key makes the run raise; the
    activity itself raises [KeyError('dependsOn')] at [len(act['dependsOn'])],
    and this is the outcome of the invocation when the activities before it
    are rendered without exception. *)
Theorem C10_dependsOn_required
        (doc name t : value) (props akvs : list (string * value))
        (pre post : list value) (n : string) (w : world) :
  getitem doc "name" = inr name ->
  py_get doc "properties" (PyDict []) = inr (PyDict props) ->
  assoc "activities" props = Some (PyList (pre ++ PyDict akvs :: post)) ->
  assoc "dependsOn" akvs = None ->
  (exists e, outcome (read_pipeline (Document doc) w) = inl e) /\
  (assoc "name" akvs = Some (PyStr n) ->
   assoc "type" akvs = Some t ->
   (forall mc w', fst (activity (PyDict akvs) mc w') = inl (KeyError (PyStr "dependsOn"))) /\
   (md_openable w = true ->
    succeeds (for_in pre activity "" w0) = true ->
    outcome (read_pipeline (Document doc) w) = inl (KeyError (PyStr "dependsOn")))).
Proof.
  intros Hname Hprops Hacts Hdeps. split.
  - eapply (read_pipeline_fails doc (PyDict props) (PyList (pre ++ PyDict akvs :: post))
                                (PyDict akvs)); eauto.
    + cbn [getitem]. now rewrite Hacts.
    + reflexivity.
    + apply in_or_app. right. now left.
    + intros d s. eapply activity_needs_dependsOn. cbn [getitem]. now rewrite Hdeps.
  - intros Hn Ht. pose proof (activity_no_dependsOn akvs n t Hn Ht Hdeps) as Hact. split.
    + intros mc w'. now rewrite Hact.
    + intros Hopen Hpre. destruct (succeeds_for_in pre Hpre) as (D & S & Hloop).
      eapply (read_pipeline_render _ w _ (inl (KeyError (PyStr "dependsOn"))) Hopen).
      eapply render_activities_fail; eauto.
      eapply for_in_fails_at; eauto using activity_acc_writer.
Qed.

Lemma C10_witness :
  (exists e, outcome (read_pipeline (Document sample_no_dependsOn) (start true "")) = inl e) /\
  outcome (read_pipeline (Document sample_no_dependsOn) (start true ""))
  = inl (KeyError (PyStr "dependsOn")).
Proof.
  pose proof (C10_dependsOn_required
                sample_no_dependsOn (PyStr "Daily Load") (PyStr "Wait")
                [("activities", PyList [load_data; PyDict wait_activity])]
                wait_activity [load_data] [] "Wait A Bit" (start true "")
                eq_refl eq_refl eq_refl eq_refl) as [Hfails Hprecise].
  split; [exact Hfails|].
  exact (proj2 (Hprecise eq_refl eq_refl) eq_refl eq_refl).
Defined.

(** * Further properties of [read_pipeline] *)

Section Further.

Lemma outcome_ok_openable (f : input_file) (w : world) :
  outcome (read_pipeline f w) = inr tt -> md_openable w = true.
Proof.
  unfold outcome, read_pipeline, bind, md_open.
  destruct (md_openable w); [reflexivity | discriminate].
Qed.

Lemma parameters_writer (props : list (string * value)) :
  exists r after,
    emits (match assoc "parameters" props with
           | Some _ => parameters_table (PyDict props)
           | None => ret tt
           end) r after /\
    (assoc "parameters" props = None -> after = "" /\ r = inr tt).
Proof.
  destruct (assoc "parameters" props) as [ps|].
  - destruct (parameters_table_writer (PyDict props)) as (r & after & H).
    exists r, after. split; [exact H | discriminate].
  - exists (inr tt), "". split; [|auto].
    intros w1. unfold ret. now rewrite append_text_nil.
Qed.

Lemma getitem_dict (v x : value) (k : string) :
  getitem v k = inr x -> exists kvs, v = PyDict kvs /\ assoc k kvs = Some x.
Proof.
  destruct v; try discriminate. cbn [getitem].
  destruct (assoc k kvs) as [y|] eqn:E; [|discriminate].
  intros H. injection H as <-. eauto.
Qed.

End Further.

(** X1: an invocation only appends.  For each pipeline file there is one
    text that every invocation adds after what the markdown file held, with
    one outcome, whatever the file held; when the markdown file cannot be
    opened its text is left as it is. *)
Theorem X1_append_only (f : input_file) :
  exists r s,
    forall text,
      outcome (read_pipeline f (start true text)) = r /\
      text_after (read_pipeline f (start true text)) = text ++ s /\
      text_after (read_pipeline f (start false text)) = text.
Proof.
  destruct (read_pipeline_appends f) as (r & s & h & _ & Hrun).
  exists r, s. intros text. unfold outcome, text_after.
  rewrite Hrun, read_pipeline_not_openable. auto.
Qed.

(** X2: a document that is not an object (a list, a string, a number,
    [null]) makes [pipelines_data['name']] raise [TypeError] before anything
    is written; the handle stays open. *)
Theorem X2_document_must_be_object (doc : value) (w : world) :
  md_openable w = true ->
  is_dict doc = false ->
  outcome (read_pipeline (Document doc) w) = inl TypeError /\
  text_after (read_pipeline (Document doc) w) = md_text w /\
  handle_after (read_pipeline (Document doc) w) = Opened.
Proof.
  intros Hopen Hdoc.
  assert (H : emits (render doc) (inl TypeError) "").
  { apply render_no_name. destruct doc; try reflexivity. discriminate. }
  destruct (read_pipeline_render _ w _ _ Hopen H) as (Hout & Htext & Hh).
  rewrite append_nil_r in Htext. auto.
Qed.

Lemma X2_witness :
  outcome (read_pipeline (Document (PyList [sample])) (start true "old")) = inl TypeError /\
  text_after (read_pipeline (Document (PyList [sample])) (start true "old")) = "old" /\
  handle_after (read_pipeline (Document (PyList [sample])) (start true "old")) = Opened.
Proof.
  exact (X2_document_must_be_object (PyList [sample]) (start true "old") eq_refl eq_refl).
Defined.

(** X3: the layout of what a run without exception appends: the heading
    with the name; the description line followed by the [Steps] heading when
    the properties have a description, and nothing (no [Steps] heading)
    when they have none; what the activities write; the diagram under its
    heading with the declarations of the activities; and the parameter
    table, which is absent without [parameters]. *)
Theorem X3_layout_of_output
        (doc name : value) (props : list (string * value)) (acts : list value) (w : world) :
  outcome (read_pipeline (Document doc) w) = inr tt ->
  getitem doc "name" = inr name ->
  py_get doc "properties" (PyDict []) = inr (PyDict props) ->
  assoc "activities" props = Some (PyList acts) ->
  exists after,
    text_after (read_pipeline (Document doc) w)
    = md_text w ++ heading_text name ++ description_text props
      ++ activities_text acts ++ diagram_text (activities_declarations acts) ++ after /\
    (assoc "parameters" props = None -> after = "").
Proof.
  intros Hout Hname Hprops Hacts.
  pose proof (outcome_ok_openable _ _ Hout) as Hopen.
  destruct (activities_acc_writer acts) as ([e|D] & S & Hloop).
  - pose proof (render_activities_fail _ _ _ _ _ _ Hname Hprops Hacts Hloop) as Hr.
    destruct (read_pipeline_render _ w _ _ Hopen Hr) as (Hout' & _).
    congruence.
  - destruct (parameters_writer props) as (r & after & Hparams & Hnone).
    pose proof (render_activities_ok _ _ _ _ _ _ _ _ Hname Hprops Hacts Hloop Hparams) as Hr.
    destruct (read_pipeline_render _ w _ _ Hopen Hr) as (_ & Htext & _).
    exists after. split.
    + rewrite Htext. unfold activities_text, activities_declarations.
      rewrite (emits_acc_w0 _ _ _ Hloop). reflexivity.
    + intros Hno. now destruct (Hnone Hno).
Qed.

Lemma X3_witness :
  text_after (read_pipeline (Document sample_copy) (start true "old"))
  = "old" ++ heading_text (PyStr "Copy It") ++ ""
    ++ activities_text [load_data]
    ++ diagram_text ("Load_Data(Load Data);" ++ nl) ++ "".
Proof.
  destruct (X3_layout_of_output
              sample_copy (PyStr "Copy It") [("activities", PyList [load_data])]
              [load_data] (start true "old") eq_refl eq_refl eq_refl eq_refl)
    as (after & Htext & Hnone).
  rewrite (Hnone eq_refl) in Htext. exact Htext.
Defined.

Section Loops.

Lemma emits_acc_at_w0 (f : string -> M string) (r : result string) (s : string) :
  emits_acc f r s -> f "" w0 = (r, World true s Opened).
Proof. intros H. rewrite H. destruct r; reflexivity. Qed.

(** What a step does on its own is what it does everywhere. *)
Lemma emits_acc_of_w0 (f : string -> M string) (r : result string) (s : string) :
  acc_writer f -> f "" w0 = (r, World true s Opened) -> emits_acc f r s.
Proof.
  intros (r' & s' & H) Hrun. rewrite (emits_acc_at_w0 _ _ _ H) in Hrun.
  injection Hrun as <- <-. exact H.
Qed.

Lemma emits_acc_app {A} (body : A -> string -> M string) (l1 l2 : list A)
      (D1 S1 S2 : string) (r2 : result string) :
  emits_acc (for_in l1 body) (inr D1) S1 ->
  emits_acc (for_in l2 body) r2 S2 ->
  emits_acc (for_in (l1 ++ l2) body) (extend D1 r2) (S1 ++ S2).
Proof.
  intros H1 H2 mc w.
  assert (Happ : forall l acc w1,
             for_in (l ++ l2) body acc w1 = bind (for_in l body acc) (for_in l2 body) w1).
  { induction l as [|x l IH]; intros acc w1; cbn [app for_in].
    - reflexivity.
    - unfold bind.
      destruct (body x acc w1) as [[e|acc'] w2]; [reflexivity|].
      rewrite IH. reflexivity. }
  rewrite Happ. unfold bind. rewrite H1. cbn [extend]. rewrite H2.
  rewrite append_text_append. destruct r2; cbn [extend]; [reflexivity|].
  now rewrite append_assoc.
Qed.

Lemma activities_observed (acts : list value) (r : result string) (S : string) :
  emits_acc (for_in acts activity) r S ->
  activities_text acts = S /\
  succeeds (for_in acts activity "" w0) = (match r with inr _ => true | inl _ => false end) /\
  (forall D, r = inr D -> activities_declarations acts = D).
Proof.
  intros H. unfold activities_text, activities_declarations, succeeds.
  rewrite (emits_acc_at_w0 _ _ _ H). cbn [fst snd md_text].
  repeat split. intros D ->. reflexivity.
Qed.

End Loops.

(** X4: the loop over the activities writes in document order and carries
    nothing but the diagram text from one activity to the next: when the
    activities of [l1] raise no exception, what the loop writes for
    [l1 ++ l2] is what it writes for [l1] followed by what it writes for
    [l2], and so are the declarations it adds to the diagram when [l2]
    raises no exception either. *)
Theorem X4_activities_in_document_order (l1 l2 : list value) :
  succeeds (for_in l1 activity "" w0) = true ->
  activities_text (l1 ++ l2) = activities_text l1 ++ activities_text l2 /\
  succeeds (for_in (l1 ++ l2) activity "" w0) = succeeds (for_in l2 activity "" w0) /\
  (succeeds (for_in l2 activity "" w0) = true ->
   activities_declarations (l1 ++ l2)
   = activities_declarations l1 ++ activities_declarations l2).
Proof.
  intros Hok. destruct (succeeds_for_in l1 Hok) as (D1 & S1 & H1).
  destruct (activities_acc_writer l2) as (r2 & S2 & H2).
  pose proof (emits_acc_app _ _ _ _ _ _ _ H1 H2) as H12.
  destruct (activities_observed _ _ _ H1) as (T1 & _ & E1).
  destruct (activities_observed _ _ _ H2) as (T2 & O2 & E2).
  destruct (activities_observed _ _ _ H12) as (T12 & O12 & E12).
  rewrite T1, T2, T12, O2, O12. split; [reflexivity|]. split.
  - destruct r2; reflexivity.
  - destruct r2 as [e|D2]; [discriminate|]. intros _.
    now rewrite (E1 _ eq_refl), (E2 _ eq_refl), (E12 _ eq_refl).
Qed.

Lemma X4_witness :
  activities_text ([load_data] ++ [run_proc])
  = activities_text [load_data] ++ activities_text [run_proc] /\
  activities_declarations ([load_data] ++ [run_proc])
  = activities_declarations [load_data] ++ activities_declarations [run_proc].
Proof.
  destruct (X4_activities_in_document_order [load_data] [run_proc] eq_refl)
    as (Htext & _ & Hdecl).
  split; [exact Htext | exact (Hdecl eq_refl)].
Defined.

(** X5: when an activity raises, the run stops there with that exception:
    the file keeps the heading, the description, what the activities before
    it wrote and what this one wrote before raising; no diagram and no
    parameter table is written, and the handle stays open. *)
Theorem X5_run_stops_at_failing_activity
        (doc name act : value) (props : list (string * value)) (pre post : list value)
        (e : exn) (s : string) (w : world) :
  md_openable w = true ->
  getitem doc "name" = inr name ->
  py_get doc "properties" (PyDict []) = inr (PyDict props) ->
  assoc "activities" props = Some (PyList (pre ++ act :: post)) ->
  succeeds (for_in pre activity "" w0) = true ->
  activity act "" w0 = (inl e, World true s Opened) ->
  outcome (read_pipeline (Document doc) w) = inl e /\
  text_after (read_pipeline (Document doc) w)
  = md_text w ++ heading_text name ++ description_text props ++ activities_text pre ++ s /\
  handle_after (read_pipeline (Document doc) w) = Opened.
Proof.
  intros Hopen Hname Hprops Hacts Hpre Hact.
  destruct (succeeds_for_in pre Hpre) as (D & S & Hloop).
  pose proof (emits_acc_of_w0 _ _ _ (activity_acc_writer act) Hact) as Hfail.
  pose proof (for_in_fails_at _ pre post act _ _ _ _ activity_acc_writer Hloop Hfail) as Hall.
  pose proof (render_activities_fail _ _ _ _ _ _ Hname Hprops Hacts Hall) as Hr.
  destruct (read_pipeline_render _ w _ _ Hopen Hr) as (Hout & Htext & Hh).
  destruct (activities_observed _ _ _ Hloop) as (-> & _).
  rewrite Htext. auto.
Qed.

Lemma X5_witness :
  outcome (read_pipeline (Document sample_no_dependsOn) (start true "old"))
  = inl (KeyError (PyStr "dependsOn")) /\
  text_after (read_pipeline (Document sample_no_dependsOn) (start true "old"))
  = "old" ++ heading_text (PyStr "Daily Load") ++ "" ++ activities_text [load_data]
    ++ name_type_lines "Wait A Bit" (PyStr "Wait") /\
  handle_after (read_pipeline (Document sample_no_dependsOn) (start true "old")) = Opened.
Proof.
  exact (X5_run_stops_at_failing_activity
           sample_no_dependsOn (PyStr "Daily Load") (PyDict wait_activity)
           [("activities", PyList [load_data; PyDict wait_activity])]
           [load_data] [] (KeyError (PyStr "dependsOn"))
           (name_type_lines "Wait A Bit" (PyStr "Wait")) (start true "old")
           eq_refl eq_refl eq_refl eq_refl eq_refl eq_refl).
Defined.

Section ActivityText.

(** What an activity that raises no exception has written starts with its
    name, type and description, and its declarations start with its node. *)
Lemma activity_lines (act name t : value) (d s : string) :
  emits_acc (activity act) (inr d) s ->
  getitem act "name" = inr name ->
  getitem act "type" = inr t ->
  exists n akvs rest drest,
    name = PyStr n /\ act = PyDict akvs /\
    s = name_type_lines n t ++ description_line akvs ++ rest /\
    d = (replace space "_" n ++ "(" ++ n ++ ");" ++ nl) ++ drest.
Proof.
  intros H Hname Ht.
  destruct (getitem_dict _ _ _ Hname) as (akvs & -> & Hn).
  apply emits_acc_w0 in H. unfold activity in H.
  invert_run. same_results.
  match goal with
  | H : py_replace ?x _ _ = inr _ |- _ =>
      destruct x as [| | | |n| |]; try discriminate H;
      cbn [py_replace] in H; injection H as <-
  end.
  match goal with
  | H : py_in "description" _ = inr _ |- _ => cbn [py_in] in H; injection H as <-
  end.
  match goal with
  | H : (if (0 <? ?k)%nat then _ else ret ?mc0) ?w1 = (inr ?r, ?w2) |- _ =>
      assert (Hdeps : exists D S, r = mc0 ++ D /\ w2 = append_text w1 S);
      [ destruct (0 <? k)%nat; invert_run;
        [ match goal with
          | H' : for_in ?l (dependency ?nm) _ _ = (inr _, _) |- _ =>
              destruct (dependencies_acc_writer nm l) as ([e|D] & S & HD);
              rewrite HD in H'; [discriminate|];
              cbn [extend] in H'; injection H' as <- <-;
              eexists; eexists; split; [reflexivity|];
              now rewrite append_text_append
          end
        | exists "", ""; now rewrite append_nil_r, append_text_nil ]
      | destruct Hdeps as (D & Sd & -> & ->); clear H ]
  end.
  match goal with
  | H : (if eq_str _ _ then _ else _) _ = (inr _, _) |- _ =>
      apply writer_extends in H;
      [ destruct H as (sc & Hs)
      | apply writer_if; [apply copy_source_writer | apply writer_ret] ]
  end.
  apply (f_equal md_text) in Hs. rewrite !md_text_append_text in Hs.
  cbn [md_text] in Hs.
  unfold description_line, name_type_lines.
  destruct (assoc "description" akvs) as [dv|] eqn:Hd; invert_run.
  - cbn [getitem] in *.
    match goal with
    | H' : match assoc "description" akvs with _ => _ end = inr _ |- _ =>
        rewrite Hd in H'; injection H' as <-
    end.
    exists n, akvs, (Sd ++ sc), D.
    repeat (split; [reflexivity|]). split; [|reflexivity].
    unfold description_line. rewrite Hd, ?md_text_append_text.
    cbn [md_text w0 py_str]. text_eq.
  - exists n, akvs, (Sd ++ sc), D.
    repeat (split; [reflexivity|]). split; [|reflexivity].
    unfold description_line. rewrite Hd, ?md_text_append_text.
    cbn [md_text w0 py_str]. text_eq.
Qed.

Lemma activity_ok_fields (act : value) (d s : string) :
  emits_acc (activity act) (inr d) s ->
  exists name t, getitem act "name" = inr name /\ getitem act "type" = inr t.
Proof.
  intros H. apply emits_acc_w0 in H. unfold activity in H.
  invert_run. eauto.
Qed.

End ActivityText.

(** X6: in a run without exception every activity is an object whose name
    is a string; the file holds its name line, its type line and, when it
    has a description, its description line, one after the other, and the
    diagram written under its heading declares its node: the name with [_]
    for spaces, then the name in parentheses. *)
Theorem X6_activity_lines_and_node
        (doc props act : value) (acts : list value) (w : world) :
  outcome (read_pipeline (Document doc) w) = inr tt ->
  py_get doc "properties" (PyDict []) = inr props ->
  getitem props "activities" = inr (PyList acts) ->
  In act acts ->
  exists n t akvs,
    act = PyDict akvs /\
    assoc "name" akvs = Some (PyStr n) /\
    assoc "type" akvs = Some t /\
    Infix (name_type_lines n t ++ description_line akvs)
          (text_after (read_pipeline (Document doc) w)) /\
    exists declarations,
      Infix (replace space "_" n ++ "(" ++ n ++ ");" ++ nl) declarations /\
      Infix (diagram_text declarations) (text_after (read_pipeline (Document doc) w)).
Proof.
  intros Hout Hprops Hacts Hin.
  destruct (successful_run_activity _ _ _ _ _ Hout Hprops Hacts Hin)
    as (d & s & D & Hact & Hd & Hs & HD).
  destruct (activity_ok_fields _ _ _ Hact) as (name & t & Hname & Ht).
  destruct (activity_lines _ _ _ _ _ Hact Hname Ht)
    as (n & akvs & rest & drest & -> & -> & -> & ->).
  destruct (getitem_dict _ _ _ Hname) as (akvs' & E & Hn). injection E as <-.
  destruct (getitem_dict _ _ _ Ht) as (akvs' & E & Hty). injection E as <-.
  exists n, t, akvs. repeat (split; [assumption || reflexivity|]). split.
  - eapply Infix_trans; [|exact Hs].
    rewrite <- append_assoc. apply Infix_app_l, Infix_refl.
  - exists D. split; [|exact HD].
    eapply Infix_trans; [|exact Hd]. apply Infix_app_l, Infix_refl.
Qed.

Lemma X6_witness :
  exists n t akvs,
    run_proc = PyDict akvs /\
    assoc "name" akvs = Some (PyStr n) /\
    assoc "type" akvs = Some t /\
    Infix (name_type_lines n t ++ description_line akvs)
          (text_after (read_pipeline (Document sample) (start true ""))) /\
    exists declarations,
      Infix (replace space "_" n ++ "(" ++ n ++ ");" ++ nl) declarations /\
      Infix (diagram_text declarations)
            (text_after (read_pipeline (Document sample) (start true ""))).
Proof.
  refine (X6_activity_lines_and_node
            sample (PyDict sample_properties) run_proc [load_data; run_proc] (start true "")
            eq_refl eq_refl eq_refl _).
  right. left. reflexivity.
Defined.


(** X7: a [Copy] activity finds its query at
    [typeProperties.source.sqlReaderQuery.value]; when one of these two
    lookups raises, the activity raises that exception after the line for
    the type of the data source has been written, and no SQL block is
    written.  (Stated for an activity without dependencies.) *)
Theorem X7_copy_without_query
        (akvs : list (string * value)) (n : string) (tp src ty : value) (e : exn)
        (mc : string) (w : world) :
  assoc "name" akvs = Some (PyStr n) ->
  assoc "type" akvs = Some (PyStr "Copy") ->
  assoc "dependsOn" akvs = Some (PyList []) ->
  assoc "typeProperties" akvs = Some tp ->
  getitem tp "source" = inr src ->
  getitem src "type" = inr ty ->
  query_of src = inl e ->
  activity (PyDict akvs) mc w
  = (inl e,
     append_text w
       (name_type_lines n (PyStr "Copy") ++ description_line akvs
        ++ (nl ++ "   **Data Source Type:** " ++ py_str ty ++ " " ++ nl))).
Proof.
  intros Hn Ht Hdeps Htp Hsrc Hty Hq.
  unfold activity, copy_source, bind, lift, md_write, ret.
  cbn [getitem py_in]. rewrite Hn, Ht, Hdeps, Htp.
  cbn [py_replace py_str py_len List.length Nat.ltb Nat.leb eq_str String.eqb Ascii.eqb Bool.eqb].
  rewrite Hsrc, Hty. unfold query_of in Hq.
  unfold description_line, name_type_lines.
  destruct (assoc "description" akvs) as [d|]; cbn beta iota;
    (destruct (getitem src "sqlReaderQuery") as [e'|q];
     [ injection Hq as -> | rewrite Hq ]);
    cbn [py_str]; rewrite ?append_text_append, ?append_assoc, ?append_nil_r; reflexivity.
Qed.

Lemma X7_witness :
  activity
    (PyDict [("name", PyStr "Load Data"); ("type", PyStr "Copy"); ("dependsOn", PyList []);
             ("typeProperties", PyDict [("source", PyDict [("type", PyStr "BlobSource")])])])
    "" w0
  = (inl (KeyError (PyStr "sqlReaderQuery")),
     append_text w0
       (name_type_lines "Load Data" (PyStr "Copy") ++ ""
        ++ (nl ++ "   **Data Source Type:** " ++ "BlobSource" ++ " " ++ nl))).
Proof.
  exact (X7_copy_without_query
           [("name", PyStr "Load Data"); ("type", PyStr "Copy"); ("dependsOn", PyList []);
            ("typeProperties", PyDict [("source", PyDict [("type", PyStr "BlobSource")])])]
           "Load Data" (PyDict [("source", PyDict [("type", PyStr "BlobSource")])])
           (PyDict [("type", PyStr "BlobSource")]) (PyStr "BlobSource")
           (KeyError (PyStr "sqlReaderQuery")) "" w0
           eq_refl eq_refl eq_refl eq_refl eq_refl eq_refl eq_refl).
Defined.

(** X8: of a dependency the function reads [activity] and the first
    element of [dependencyConditions] and nothing else: two dependency
    objects with the same [activity] and the same first condition are
    rendered alike, whatever their other conditions and keys. *)
Theorem X8_only_first_condition
        (activity_name c : value) (kvs kvs' : list (string * value))
        (more more' : list value) (mc : string) (w : world) :
  assoc "activity" kvs' = assoc "activity" kvs ->
  assoc "dependencyConditions" kvs = Some (PyList (c :: more)) ->
  assoc "dependencyConditions" kvs' = Some (PyList (c :: more')) ->
  dependency activity_name (PyDict kvs') mc w = dependency activity_name (PyDict kvs) mc w.
Proof.
  intros Ha Hc Hc'. unfold dependency, bind, lift.
  cbn [getitem]. rewrite Ha, Hc, Hc'. reflexivity.
Qed.

Lemma X8_witness :
  dependency (PyStr "Run Proc")
    (PyDict [("dependencyConditions", PyList [PyStr "Succeeded"; PyStr "Failed"]);
             ("activity", PyStr "Load Data"); ("note", PyNone)]) "" w0
  = dependency (PyStr "Run Proc") load_data_succeeded "" w0.
Proof.
  exact (X8_only_first_condition
           (PyStr "Run Proc") (PyStr "Succeeded")
           [("activity", PyStr "Load Data"); ("dependencyConditions", PyList [PyStr "Succeeded"])]
           [("dependencyConditions", PyList [PyStr "Succeeded"; PyStr "Failed"]);
            ("activity", PyStr "Load Data"); ("note", PyNone)]
           [] [PyStr "Failed"] "" w0 eq_refl eq_refl eq_refl).
Defined.

(** X9: the name of an activity has to be a string: any other value is
    written in the name line with [str], and then [activity_name.replace]
    raises [AttributeError], after the name and type lines were written and
    before the node is declared. *)
Theorem X9_activity_name_must_be_string
        (akvs : list (string * value)) (name t : value) (mc : string) (w : world) :
  assoc "name" akvs = Some name ->
  assoc "type" akvs = Some t ->
  is_str name = false ->
  activity (PyDict akvs) mc w
  = (inl AttributeError, append_text w (name_type_lines (py_str name) t)).
Proof.
  intros Hn Ht Hstr.
  unfold activity, bind, lift, md_write, ret. cbn [getitem]. rewrite Hn, Ht.
  unfold name_type_lines.
  destruct name; try discriminate Hstr; cbn [py_replace];
    now rewrite append_text_append.
Qed.

Lemma X9_witness :
  activity (PyDict [("name", PyInt 7); ("type", PyStr "Wait"); ("dependsOn", PyList [])]) "" w0
  = (inl AttributeError, append_text w0 (name_type_lines "7" (PyStr "Wait"))).
Proof.
  exact (X9_activity_name_must_be_string
           [("name", PyInt 7); ("type", PyStr "Wait"); ("dependsOn", PyList [])]
           (PyInt 7) (PyStr "Wait") "" w0 eq_refl eq_refl eq_refl).
Defined.

(** X10: an activity whose type is not exactly the string ["Copy"] is
    rendered from its [name], [type], [description] and [dependsOn] alone:
    [typeProperties] and every other key are never read.  The comparison is
    that of Python strings, so ["copy"] is not ["Copy"]. *)
Theorem X10_only_copy_reads_type_properties
        (akvs akvs' : list (string * value)) (mc : string) (w : world) :
  assoc "name" akvs' = assoc "name" akvs ->
  assoc "type" akvs' = assoc "type" akvs ->
  assoc "description" akvs' = assoc "description" akvs ->
  assoc "dependsOn" akvs' = assoc "dependsOn" akvs ->
  (forall t, assoc "type" akvs = Some t -> eq_str t "Copy" = false) ->
  activity (PyDict akvs') mc w = activity (PyDict akvs) mc w.
Proof.
  intros Hn Ht Hd Hdeps Hcopy.
  unfold activity, bind, lift, md_write, ret. cbn [getitem py_in].
  rewrite Hn, Ht, Hd, Hdeps.
  destruct (assoc "name" akvs) as [name|]; [|reflexivity].
  destruct (assoc "type" akvs) as [t|] eqn:Et; [|reflexivity].
  rewrite (Hcopy t eq_refl). reflexivity.
Qed.

Lemma X10_witness :
  activity
    (PyDict [("typeProperties", PyNone); ("name", PyStr "Load Data"); ("type", PyStr "copy");
             ("dependsOn", PyList [])]) "" w0
  = activity
      (PyDict [("name", PyStr "Load Data"); ("type", PyStr "copy"); ("dependsOn", PyList [])])
      "" w0.
Proof.
  refine (X10_only_copy_reads_type_properties
            [("name", PyStr "Load Data"); ("type", PyStr "copy"); ("dependsOn", PyList [])]
            [("typeProperties", PyNone); ("name", PyStr "Load Data"); ("type", PyStr "copy");
             ("dependsOn", PyList [])]
            "" w0 eq_refl eq_refl eq_refl eq_refl _).
  intros t Ht. injection Ht as <-. reflexivity.
Defined.

Section Table.

Lemma parameter_row_dict (p : string) (info : list (string * value)) (u : unit) :
  emits (parameter_row (p, PyDict info) u) (inr tt) (row_text (p, PyDict info)).
Proof.
  intros w. unfold parameter_row, bind, lift, md_write, row_text. cbn [py_get fst snd].
  destruct (assoc "type" info); destruct (assoc "defaultValue" info); reflexivity.
Qed.

Lemma rows_emit (params : list (string * value)) :
  forallb (fun item => is_dict (snd item)) params = true ->
  forall u, emits (for_in params parameter_row u) (inr tt) (rows_text params).
Proof.
  induction params as [|[p v] params IH]; intros Hall u w.
  - cbn. destruct u. now rewrite append_text_nil.
  - cbn [forallb snd] in Hall. apply andb_prop in Hall. destruct Hall as [Hv Hrest].
    destruct v as [| | | | | |info]; try discriminate Hv.
    cbn [for_in rows_text fold_right]. unfold bind.
    rewrite parameter_row_dict. rewrite (IH Hrest).
    now rewrite append_text_append.
Qed.


Lemma table_emit (props params : list (string * value)) (r : result unit) (s : string) :
  assoc "parameters" props = Some (PyDict params) ->
  emits (for_in params parameter_row tt) r s ->
  emits (parameters_table (PyDict props)) r (table_header ++ s).
Proof.
  intros Hparams Hrows w.
  unfold parameters_table, bind, lift, md_write, table_header. cbn [py_get].
  rewrite Hparams. cbn [py_items]. rewrite Hrows.
  rewrite !append_text_append, !append_assoc. reflexivity.
Qed.

Lemma table_not_dict (props : list (string * value)) (v : value) :
  assoc "parameters" props = Some v ->
  is_dict v = false ->
  emits (parameters_table (PyDict props)) (inl AttributeError) table_header.
Proof.
  intros Hparams Hv w.
  unfold parameters_table, bind, lift, md_write, table_header. cbn [py_get].
  rewrite Hparams.
  destruct v; try discriminate Hv; cbn [py_items];
    rewrite !append_text_append, !append_assoc; reflexivity.
Qed.

(** A run whose activities raise no exception, up to the end of the
    parameter table. *)
Lemma run_with_table (doc name pv : value) (props : list (string * value))
      (acts : list value) (r : result unit) (after : string) (w : world) :
  md_openable w = true ->
  getitem doc "name" = inr name ->
  py_get doc "properties" (PyDict []) = inr (PyDict props) ->
  assoc "activities" props = Some (PyList acts) ->
  succeeds (for_in acts activity "" w0) = true ->
  assoc "parameters" props = Some pv ->
  emits (parameters_table (PyDict props)) r after ->
  outcome (read_pipeline (Document doc) w) = r /\
  text_after (read_pipeline (Document doc) w)
  = md_text w ++ heading_text name ++ description_text props ++ activities_text acts
    ++ diagram_text (activities_declarations acts) ++ after /\
  handle_after (read_pipeline (Document doc) w)
  = match r with inr _ => Closed | inl _ => Opened end.
Proof.
  intros Hopen Hname Hprops Hacts Hok Hparams Htable.
  destruct (succeeds_for_in acts Hok) as (D & S & Hloop).
  assert (Hp : emits (match assoc "parameters" props with
                      | Some _ => parameters_table (PyDict props)
                      | None => ret tt
                      end) r after) by now rewrite Hparams.
  pose proof (render_activities_ok _ _ _ _ _ _ _ _ Hname Hprops Hacts Hloop Hp) as Hr.
  destruct (read_pipeline_render _ w _ _ Hopen Hr) as (Hout & Htext & Hh).
  destruct (activities_observed _ _ _ Hloop) as (-> & _ & HD).
  rewrite (HD D eq_refl). auto.
Qed.

End Table.



(** X12: a [parameters] key whose value is not an object ([null], a list,
    a string) passes the test ['parameters' in properties], so the heading
    and the header rows of the table are written; then [parameters.items()]
    raises [AttributeError], and the handle stays open. *)
Theorem X12_parameters_must_be_object
        (doc name pv : value) (props : list (string * value))
        (acts : list value) (w : world) :
  md_openable w = true ->
  getitem doc "name" = inr name ->
  py_get doc "properties" (PyDict []) = inr (PyDict props) ->
  assoc "activities" props = Some (PyList acts) ->
  succeeds (for_in acts activity "" w0) = true ->
  assoc "parameters" props = Some pv ->
  is_dict pv = false ->
  outcome (read_pipeline (Document doc) w) = inl AttributeError /\
  text_after (read_pipeline (Document doc) w)
  = md_text w ++ heading_text name ++ description_text props ++ activities_text acts
    ++ diagram_text (activities_declarations acts) ++ table_header /\
  handle_after (read_pipeline (Document doc) w) = Opened.
Proof.
  intros Hopen Hname Hprops Hacts Hok Hparams Hpv.
  exact (run_with_table _ _ _ _ _ _ _ _ Hopen Hname Hprops Hacts Hok Hparams
           (table_not_dict _ _ Hparams Hpv)).
Qed.

Lemma X12_witness :
  let doc := PyDict [("name", PyStr "P");
                     ("properties", PyDict [("activities", PyList []);
                                            ("parameters", PyNone)])] in
  outcome (read_pipeline (Document doc) (start true "")) = inl AttributeError /\
  text_after (read_pipeline (Document doc) (start true ""))
  = "" ++ heading_text (PyStr "P") ++ "" ++ "" ++ diagram_text "" ++ table_header /\
  handle_after (read_pipeline (Document doc) (start true "")) = Opened.
Proof.
  exact (X12_parameters_must_be_object
           (PyDict [("name", PyStr "P");
                    ("properties", PyDict [("activities", PyList []);
                                           ("parameters", PyNone)])])
           (PyStr "P") PyNone [("activities", PyList []); ("parameters", PyNone)]
           [] (start true "")
           eq_refl eq_refl eq_refl eq_refl eq_refl eq_refl eq_refl).
Defined.



Section Shaped.

Lemma for_in_all_ok {A} (body : A -> string -> M string) (l : list A) :
  (forall x, In x l -> exists d s, emits_acc (body x) (inr d) s) ->
  exists D S, emits_acc (for_in l body) (inr D) S.
Proof.
  induction l as [|x l IH]; intros Hall.
  - exists "", "". intros mc w. cbn. now rewrite append_nil_r, append_text_nil.
  - destruct (Hall x (or_introl eq_refl)) as (d & s & Hx).
    destruct IH as (D & S & Hl); [intros y Hy; apply Hall; now right|].
    exists (d ++ D), (s ++ S). intros mc w. cbn [for_in]. unfold bind.
    rewrite Hx. cbn [extend]. rewrite Hl. cbn [extend].
    now rewrite append_text_append, append_assoc.
Qed.

Lemma shaped_dependency_ok (n : string) (dep : value) :
  shaped_dependency dep = true ->
  exists d s, emits_acc (dependency (PyStr n) dep) (inr d) s.
Proof.
  intros H. destruct dep as [| | | | | |kvs]; try discriminate H.
  cbn [shaped_dependency] in H.
  destruct (assoc "activity" kvs) as [[| | | |a| |]|] eqn:Ha; try discriminate H.
  destruct (assoc "dependencyConditions" kvs) as [[| | | | |[|c more]|]|] eqn:Hc;
    try discriminate H.
  eexists. eexists.
  eapply (dependency_emits (PyStr n) (PyDict kvs) n a (PyList (c :: more)) c eq_refl).
  - cbn [getitem]. now rewrite Ha.
  - cbn [getitem]. now rewrite Hc.
  - reflexivity.
Qed.

Lemma shaped_activity_ok (act : value) :
  shaped_activity act = true ->
  exists d s, emits_acc (activity act) (inr d) s.
Proof.
  intros H. destruct act as [| | | | | |akvs]; try discriminate H.
  cbn [shaped_activity] in H.
  destruct (assoc "name" akvs) as [[| | | |n| |]|] eqn:Hn; try discriminate H.
  destruct (assoc "type" akvs) as [t|] eqn:Ht; try discriminate H.
  destruct (assoc "dependsOn" akvs) as [[| | | | |deps|]|] eqn:Hdeps; try discriminate H.
  apply andb_prop in H. destruct H as [Hall Hcopy].
  destruct (for_in_all_ok (dependency (PyStr n)) deps) as (D & S & Hl).
  { intros dep Hin. apply shaped_dependency_ok.
    rewrite forallb_forall in Hall. now apply Hall. }
  destruct (activity_acc_writer (PyDict akvs)) as ([e|d] & s & Hact); [exfalso | eauto].
  specialize (Hact "" w0).
  unfold activity, copy_source, bind, lift, md_write, ret in Hact.
  cbn [getitem py_in] in Hact. rewrite Hn, Ht, Hdeps in Hact.
  cbn [py_replace py_len py_iter extend] in Hact.
  destruct (eq_str t "Copy").
  - unfold shaped_source in Hcopy.
    destruct (assoc "typeProperties" akvs) as [[| | | | | |tp]|] eqn:Htp;
      try discriminate Hcopy.
    destruct (assoc "source" tp) as [[| | | | | |src]|] eqn:Hsrc; try discriminate Hcopy.
    destruct (assoc "type" src) as [ty|] eqn:Hty; try discriminate Hcopy.
    destruct (assoc "sqlReaderQuery" src) as [[| | | | | |q]|] eqn:Hq;
      try discriminate Hcopy.
    destruct (assoc "value" q) as [v|] eqn:Hv; try discriminate Hcopy.
    destruct (assoc "description" akvs); destruct (0 <? List.length deps)%nat;
      cbn beta iota in Hact; rewrite ?Hl in Hact; cbn [extend getitem] in Hact;
      rewrite Hsrc in Hact; cbn [getitem] in Hact; rewrite Hty, Hq in Hact;
      cbn [getitem] in Hact; rewrite Hv in Hact;
      discriminate Hact.
  - destruct (assoc "description" akvs); destruct (0 <? List.length deps)%nat;
      cbn beta iota in Hact; rewrite ?Hl in Hact; cbn [extend] in Hact;
      discriminate Hact.
Qed.

End Shaped.

(** X14: a document of the expected shape is rendered without exception,
    and the file is closed: an object with a [name], whose [properties] are
    an object with a list of [activities]; each activity an object with a
    string [name], a [type] and a list [dependsOn] of objects with a string
    [activity] and a non-empty list [dependencyConditions]; each [Copy]
    activity with [typeProperties.source] holding a [type] and a
    [sqlReaderQuery.value]; and [parameters], when present, an object whose
    values are objects. *)
Theorem X14_shaped_pipeline_renders (doc : value) (w : world) :
  md_openable w = true ->
  shaped_pipeline doc = true ->
  outcome (read_pipeline (Document doc) w) = inr tt /\
  handle_after (read_pipeline (Document doc) w) = Closed.
Proof.
  intros Hopen H. destruct doc as [| | | | | |kvs]; try discriminate H.
  cbn [shaped_pipeline] in H.
  destruct (assoc "name" kvs) as [name|] eqn:Hname; try discriminate H.
  destruct (assoc "properties" kvs) as [[| | | | | |props]|] eqn:Hprops; try discriminate H.
  destruct (assoc "activities" props) as [[| | | | |acts|]|] eqn:Hacts; try discriminate H.
  apply andb_prop in H. destruct H as [Hall Hparams].
  destruct (for_in_all_ok activity acts) as (D & S & Hloop).
  { intros act Hin. apply shaped_activity_ok.
    rewrite forallb_forall in Hall. now apply Hall. }
  assert (Htable : exists after,
             emits (match assoc "parameters" props with
                    | Some _ => parameters_table (PyDict props)
                    | None => ret tt
                    end) (inr tt) after).
  { unfold shaped_parameters in Hparams.
    destruct (assoc "parameters" props) as [[| | | | | |params]|] eqn:Hp;
      try discriminate Hparams.
    - eexists. exact (table_emit _ _ _ _ Hp (rows_emit _ Hparams tt)).
    - exists "". intros w1. unfold ret. now rewrite append_text_nil. }
  destruct Htable as (after & Htable).
  assert (Hn : getitem (PyDict kvs) "name" = inr name) by (cbn [getitem]; now rewrite Hname).
  assert (Hp : py_get (PyDict kvs) "properties" (PyDict []) = inr (PyDict props))
    by (cbn [py_get]; now rewrite Hprops).
  pose proof (render_activities_ok _ _ _ _ _ _ _ _ Hn Hp Hacts Hloop Htable) as Hr.
  destruct (read_pipeline_render _ w _ _ Hopen Hr) as (Hout & _ & Hh). auto.
Qed.

Lemma X14_witness :
  outcome (read_pipeline (Document sample) (start true "old")) = inr tt /\
  handle_after (read_pipeline (Document sample) (start true "old")) = Closed.
Proof. exact (X14_shaped_pipeline_renders sample (start true "old") eq_refl eq_refl). Defined.

Section ActivityExact.

Lemma dependencies_emit (n : string) (deps : list value) :
  forallb shaped_dependency deps = true ->
  emits_acc (for_in deps (dependency (PyStr n)))
            (inr (dependencies_edges n deps))
            (fold_right (fun dep rest => dependency_line dep ++ rest) "" deps).
Proof.
  induction deps as [|dep deps IH]; intros Hall mc w.
  - cbn. now rewrite append_nil_r, append_text_nil.
  - cbn [forallb] in Hall. apply andb_prop in Hall. destruct Hall as [Hdep Hrest].
    destruct dep as [| | | | | |kvs]; try discriminate Hdep.
    cbn [shaped_dependency] in Hdep.
    destruct (assoc "activity" kvs) as [[| | | |a| |]|] eqn:Ha; try discriminate Hdep.
    destruct (assoc "dependencyConditions" kvs) as [[| | | | |[|c more]|]|] eqn:Hc;
      try discriminate Hdep.
    assert (Hga : getitem (PyDict kvs) "activity" = inr (PyStr a))
      by (cbn [getitem]; now rewrite Ha).
    assert (Hgc : getitem (PyDict kvs) "dependencyConditions" = inr (PyList (c :: more)))
      by (cbn [getitem]; now rewrite Hc).
    cbn [for_in fold_right dependencies_edges]. unfold bind.
    rewrite (dependency_emits (PyStr n) (PyDict kvs) n a _ c eq_refl Hga Hgc eq_refl).
    cbn [extend]. rewrite (IH Hrest). cbn [extend].
    unfold dependency_line, dependency_edge. rewrite Hga, Hgc.
    now rewrite append_text_append, !append_assoc.
Qed.

End ActivityExact.

(** X15: what an activity of the expected shape writes and declares.  To
    the file: its name and type lines, its description line if it has one,
    the [Dependencies] label followed by one line per dependency in order
    when [dependsOn] is not empty (and no label when it is empty), and the
    source lines with the SQL block when its type is ["Copy"].  To the
    diagram: its node, then one edge per dependency in order. *)
Theorem X15_activity_text
        (akvs : list (string * value)) (n : string) (t : value) (deps : list value)
        (mc : string) (w : world) :
  shaped_activity (PyDict akvs) = true ->
  assoc "name" akvs = Some (PyStr n) ->
  assoc "type" akvs = Some t ->
  assoc "dependsOn" akvs = Some (PyList deps) ->
  activity (PyDict akvs) mc w
  = (inr (mc ++ (replace space "_" n ++ "(" ++ n ++ ");" ++ nl) ++ dependencies_edges n deps),
     append_text w
       (name_type_lines n t ++ description_line akvs ++ dependencies_text deps
        ++ (if eq_str t "Copy" then source_text akvs else ""))).
Proof.
  intros H Hn Ht Hdeps. cbn [shaped_activity] in H. rewrite Hn, Ht, Hdeps in H.
  apply andb_prop in H. destruct H as [Hall Hcopy].
  pose proof (dependencies_emit n deps Hall) as Hl.
  unfold activity, copy_source, bind, lift, md_write, ret.
  cbn [getitem py_in]. rewrite Hn, Ht, Hdeps.
  cbn [py_replace py_len py_iter py_str].
  unfold name_type_lines, description_line, dependencies_text, source_text.
  destruct (eq_str t "Copy").
  - unfold shaped_source in Hcopy. unfold query_of.
    destruct (assoc "typeProperties" akvs) as [[| | | | | |tp]|] eqn:Htp;
      try discriminate Hcopy.
    destruct (assoc "source" tp) as [[| | | | | |src]|] eqn:Hsrc; try discriminate Hcopy.
    destruct (assoc "type" src) as [ty|] eqn:Hty; try discriminate Hcopy.
    destruct (assoc "sqlReaderQuery" src) as [[| | | | | |q]|] eqn:Hq;
      try discriminate Hcopy.
    destruct (assoc "value" q) as [v|] eqn:Hv; try discriminate Hcopy.
    destruct (assoc "description" akvs); destruct deps as [|dep deps'];
      cbn beta iota; cbn [List.length Nat.ltb Nat.leb]; cbn beta iota;
      rewrite ?Hl; cbn [extend getitem];
      rewrite Hsrc; cbn [getitem]; rewrite Hty, Hq; cbn [getitem]; rewrite Hv;
      cbn [fold_right dependencies_edges];
      rewrite ?append_text_append, ?append_assoc, ?append_nil_r; reflexivity.
  - destruct (assoc "description" akvs); destruct deps as [|dep deps'];
      cbn beta iota; cbn [List.length Nat.ltb Nat.leb]; cbn beta iota;
      rewrite ?Hl; cbn [extend];
      cbn [fold_right dependencies_edges];
      rewrite ?append_text_append, ?append_assoc, ?append_nil_r; reflexivity.
Qed.

Lemma X15_witness :
  activity run_proc "" w0
  = (inr ("Run_Proc(Run Proc);" ++ nl ++ "Load_Data --> Run_Proc;" ++ nl),
     append_text w0
       (name_type_lines "Run Proc" (PyStr "SqlServerStoredProcedure")
        ++ (nl ++ "   **Description:** runs it " ++ nl)
        ++ (nl ++ "   **Dependencies:**"
               ++ nl ++ "   * [Load Data](#Load-Data) (Succeeded) " ++ nl))).
Proof.
  exact (X15_activity_text
           [("name", PyStr "Run Proc"); ("type", PyStr "SqlServerStoredProcedure");
            ("description", PyStr "runs it");
            ("dependsOn", PyList [load_data_succeeded])]
           "Run Proc" (PyStr "SqlServerStoredProcedure") [load_data_succeeded] "" w0
           eq_refl eq_refl eq_refl eq_refl).
Defined.
